(** * The KIPR backend client: entity model and its REST backend

    A shallow embedding of [src/index.ts] (the abstract entity contract with
    its [Brief] classes) and of [src/Rest.ts] (the REST backend).

    JavaScript objects live in a heap and are referred to by location, so
    that object identity, back-references and the cycle between a
    [RestVersion] and its [RestVersion.Files] are modelled as they are in the
    program.  Synchronous code is a state-and-exception computation over the
    heap; an [async] method is such a computation that never throws and
    yields a settled promise. *)

From stdpp Require Import base list strings.

Set Default Proof Using "Type".
Open Scope string_scope.
Open Scope list_scope.

(** ** Handles

    [File.Handle], [Version.Handle], [Project.Handle], [User.Handle] and
    [Organization.Handle] are all aliases of [string] in the source. *)

Definition File_Handle := string.
Definition Version_Handle := string.
Definition Project_Handle := string.
Definition User_Handle := string.
Definition Organization_Handle := string.

(** ** Objects of [Rest.ts]

    One record per class, one field per field of the class.  A field that
    holds an object holds its location. *)

Definition loc := nat.

Record RestFile := {
  RestFile_version_ : loc;
  RestFile_handle_ : File_Handle
}.

Record RestVersion := {
  RestVersion_handle_ : Version_Handle;
  RestVersion_project_ : loc;
  RestVersion_files_ : loc
}.

Record RestVersion_Files := {
  RestVersion_Files_version_ : loc
}.

(** [name_?: string] is optional and no path of the source assigns it. *)
Record RestProject := {
  RestProject_user_ : loc;
  RestProject_handle_ : Project_Handle;
  RestProject_name_ : option string;
  RestProject_versions_ : loc
}.

Record RestProject_Versions := {
  RestProject_Versions_project_ : loc
}.

Record RestUser := {
  RestUser_client_ : loc;
  RestUser_token_ : string;
  RestUser_projects_ : loc
}.

Record RestUser_Projects := {
  RestUser_Projects_user_ : loc
}.

Record RestClient := {
  RestClient_url_ : string
}.

(** ** The [Brief] classes of [index.ts]

    [File.Brief] and [Version.Brief] declare no constructor; an instance
    gets its fields from whoever builds the listing. *)
Record File_Brief := {
  File_Brief_version_ : loc;
  File_Brief_path_ : string;
  File_Brief_handle_ : File_Handle
}.

Record Version_Brief := {
  Version_Brief_project_ : loc;
  Version_Brief_name_ : string;
  Version_Brief_description_ : option string;
  Version_Brief_handle_ : Version_Handle
}.

Record Project_Brief := {
  Project_Brief_user_ : loc;
  Project_Brief_name_ : string;
  Project_Brief_handle_ : Project_Handle
}.

Inductive obj :=
| OFile_Brief (o : File_Brief)
| OVersion_Brief (o : Version_Brief)
| OProject_Brief (o : Project_Brief)
| ORestFile (o : RestFile)
| ORestVersion (o : RestVersion)
| ORestVersion_Files (o : RestVersion_Files)
| ORestProject (o : RestProject)
| ORestProject_Versions (o : RestProject_Versions)
| ORestUser (o : RestUser)
| ORestUser_Projects (o : RestUser_Projects)
| ORestClient (o : RestClient).

(** The heap: objects in allocation order; a location is an index. *)
Definition heap := list obj.

(** ** Errors, completions and promises

    [TypeError] and [ReferenceError] are the two exceptions the JavaScript
    runtime can raise in this code.  The remaining kinds are the error
    taxonomy that the specification asks of a backend; they are listed so
    that statements about them can be written, and no path of the source
    constructs any of them. *)
Inductive error :=
| TypeError
| ReferenceError
| NotFound
| Conflict
| PermissionDenied
| AuthenticationFailed
| InvalidState
| Unavailable.

Inductive result (A : Type) :=
| Ok (a : A)
| Throw (e : error).
Arguments Ok {A} a.
Arguments Throw {A} e.

(** A promise, by the way it settles. *)
Inductive Promise (A : Type) :=
| Fulfilled (a : A)
| Rejected (e : error).
Arguments Fulfilled {A} a.
Arguments Rejected {A} e.

Definition M (A : Type) : Type := heap -> result A * heap.

Definition ret {A} (a : A) : M A := fun s => (Ok a, s).

Definition throw {A} (e : error) : M A := fun s => (Throw e, s).

Definition bind {A B} (m : M A) (k : A -> M B) : M B :=
  fun s =>
    match m s with
    | (Ok a, s') => k a s'
    | (Throw e, s') => (Throw e, s')
    end.

Declare Scope js_scope.
Delimit Scope js_scope with js.
Notation "x <- m ;; k" := (bind m (fun x => k))
  (at level 100, m at next level, right associativity) : js_scope.
Notation "m ;;; k" := (bind m (fun _ => k))
  (at level 100, right associativity) : js_scope.
Open Scope js_scope.

(** The body of an [async] function: a return fulfils the promise, an
    exception rejects it, and nothing is thrown to the caller. *)
Definition async {A} (body : M A) : M (Promise A) :=
  fun s =>
    match body s with
    | (Ok a, s') => (Ok (Fulfilled a), s')
    | (Throw e, s') => (Ok (Rejected e), s')
    end.

(** [await p]: the value of a fulfilled promise, the exception of a rejected
    one. *)
Definition await {A} (p : Promise A) : M A :=
  match p with
  | Fulfilled a => ret a
  | Rejected e => throw e
  end.

(** [new C(...)]: the object gets the next location.  [mk this] lists the
    object itself followed by the objects its field initialisers construct,
    which may refer back to [this]. *)
Definition construct (mk : loc -> list obj) : M loc :=
  fun s => (Ok (length s), s ++ mk (length s)).

(** Reading through a reference. A location outside the heap cannot arise in
    the program; the model raises [TypeError] there. *)
Definition deref (l : loc) : M obj :=
  fun s =>
    match s !! l with
    | Some o => (Ok o, s)
    | None => (Throw TypeError, s)
    end.

(** ** JavaScript values, for what is dynamically typed in the source *)

#[warnings="-register-all"]
Inductive value :=
| VUndefined
| VString (s : string)
| VArray (xs : list value)
| VObject (l : loc).

(** [ToBoolean], as an [if] applies it. *)
Definition truthy (v : value) : bool :=
  match v with
  | VUndefined => false
  | VString s => negb (String.eqb s "")
  | VArray _ => true
  | VObject _ => true
  end.

(** The global scope, as far as [Rest.ts] reads it: the free identifier
    [name] in [RestProject.name] is neither imported nor declared in the
    module, so it denotes the global [name] of the host ([window.name] in a
    browser), or nothing at all when the host defines none. *)
Record Env := {
  global_name : option value
}.

(** Evaluating the identifier [name]. *)
Definition read_global_name (env : Env) : M value :=
  match global_name env with
  | Some v => ret v
  | None => throw ReferenceError
  end.

(** ** [Rest.ts] *)

Module RestFile.
(** [constructor(handle, version)] *)
Definition new (handle : File_Handle) (version : loc) : M loc :=
  construct (fun _ =>
    [ORestFile {| RestFile_version_ := version; RestFile_handle_ := handle |}]).

Definition version (this : RestFile) : loc := RestFile_version_ this.
Definition handle (this : RestFile) : File_Handle := RestFile_handle_ this.

Definition path (this : RestFile) : M (Promise string) :=
  async (ret "").

Definition move (this : RestFile) (path : string) : M (Promise unit) :=
  async (ret tt).

Definition read (this : RestFile) : M (Promise string) :=
  async (ret "").

Definition update (this : RestFile) (contents : string) : M (Promise unit) :=
  async (ret tt).

Definition close (this : RestFile) : M (Promise unit) :=
  async (ret tt).
End RestFile.

Module RestVersion.
(** [constructor(handle, project)], after the field initialiser
    [files_ = new RestVersion.Files(this)], whose constructor stores
    [this] in [version_]. *)
Definition new (handle : Version_Handle) (project : loc) : M loc :=
  construct (fun this =>
    [ORestVersion {| RestVersion_handle_ := handle;
                     RestVersion_project_ := project;
                     RestVersion_files_ := S this |};
     ORestVersion_Files {| RestVersion_Files_version_ := this |}]).

Definition handle (this : RestVersion) : Version_Handle := RestVersion_handle_ this.
Definition project (this : RestVersion) : loc := RestVersion_project_ this.
Definition files (this : RestVersion) : loc := RestVersion_files_ this.

Module Files.
Definition list (this : RestVersion_Files) : M (Promise (list loc)) :=
  async (ret []).

Definition create (this : RestVersion_Files) (path : string) : M (Promise loc) :=
  async (RestFile.new "" (RestVersion_Files_version_ this)).

Definition open (this : RestVersion_Files) (handle : File_Handle) : M (Promise loc) :=
  async (RestFile.new handle (RestVersion_Files_version_ this)).
End Files.
End RestVersion.

Module RestProject.
(** [constructor(handle, user)], after the field initialiser
    [versions_ = new RestProject.Versions(this)]; [name_] stays
    undefined. *)
Definition new (handle : Project_Handle) (user : loc) : M loc :=
  construct (fun this =>
    [ORestProject {| RestProject_user_ := user;
                     RestProject_handle_ := handle;
                     RestProject_name_ := None;
                     RestProject_versions_ := S this |};
     ORestProject_Versions {| RestProject_Versions_project_ := this |}]).

Definition user (this : RestProject) : loc := RestProject_user_ this.
Definition handle (this : RestProject) : Project_Handle := RestProject_handle_ this.
Definition versions (this : RestProject) : loc := RestProject_versions_ this.

(** [if (name) return this.name_; return '';] where [name] is the global
    identifier, not the field.  The result is [string | undefined]. *)
Definition name (env : Env) (this : RestProject) : M (Promise (option string)) :=
  async (
    n <- read_global_name env ;;
    if truthy n then ret (RestProject_name_ this) else ret (Some "")).

Definition close (this : RestProject) : M (Promise unit) :=
  async (ret tt).

Module Versions.
Definition list (this : RestProject_Versions) : M (Promise (list loc)) :=
  async (ret []).

Definition create (this : RestProject_Versions)
    (name : string) (description : option string) : M (Promise loc) :=
  async (RestVersion.new "" (RestProject_Versions_project_ this)).

Definition restore (this : RestProject_Versions) (handle : Version_Handle)
    (name description : option string) : M (Promise loc) :=
  async (RestVersion.new handle (RestProject_Versions_project_ this)).

Definition open (this : RestProject_Versions) (handle : Version_Handle) : M (Promise loc) :=
  async (RestVersion.new handle (RestProject_Versions_project_ this)).
End Versions.
End RestProject.

Module RestUser.
(** [constructor(token, client)], after the field initialiser
    [projects_ = new RestUser.Projects(this)]. *)
Definition new (token : string) (client : loc) : M loc :=
  construct (fun this =>
    [ORestUser {| RestUser_client_ := client;
                  RestUser_token_ := token;
                  RestUser_projects_ := S this |};
     ORestUser_Projects {| RestUser_Projects_user_ := this |}]).

Definition client (this : RestUser) : loc := RestUser_client_ this.
Definition projects (this : RestUser) : loc := RestUser_projects_ this.

Module Projects.
Definition list (this : RestUser_Projects) : M (Promise (list loc)) :=
  async (ret []).

Definition create (this : RestUser_Projects) (name : string) : M (Promise loc) :=
  async (RestProject.new "" (RestUser_Projects_user_ this)).

Definition open (this : RestUser_Projects) (handle : Project_Handle) : M (Promise loc) :=
  async (RestProject.new handle (RestUser_Projects_user_ this)).

Definition delete (this : RestUser_Projects) (handle : Project_Handle) : M (Promise unit) :=
  async (ret tt).
End Projects.
End RestUser.

Module RestClient.
Definition DEFAULT_URL : string := "https://api.kipr.org".

(** [constructor(url = RestClient.DEFAULT_URL)] *)
Definition new (url : option string) : M loc :=
  construct (fun _ =>
    [ORestClient {| RestClient_url_ := default DEFAULT_URL url |}]).

Definition url (this : RestClient) : string := RestClient_url_ this.

(** [login] is a method of the client object and passes [this] on, so it
    takes the client's location. *)
Definition login (this : loc) (username password : string) : M (Promise loc) :=
  async (RestUser.new "" this).
End RestClient.

(** ** [index.ts]

    The interfaces [User], [Project], [Version] and their collections are
    implemented by the classes of [Rest.ts] (the socket backend is not part
    of the sources at hand).  A member access through an interface is
    dispatched on the class of the object found at the reference; an object
    of another class has no such member, and using the missing member
    raises [TypeError]. *)

Module User.
(** [user.projects] *)
Definition projects (user : loc) : M loc :=
  o <- deref user ;;
  match o with
  | ORestUser u => ret (RestUser.projects u)
  | _ => throw TypeError
  end.

Module Projects.
(** [projects.open(handle)] *)
Definition open (projects : loc) (handle : Project_Handle) : M (Promise loc) :=
  o <- deref projects ;;
  match o with
  | ORestUser_Projects c => RestUser.Projects.open c handle
  | _ => throw TypeError
  end.
End Projects.
End User.

Module Project.
(** [project.versions] *)
Definition versions (project : loc) : M loc :=
  o <- deref project ;;
  match o with
  | ORestProject p => ret (RestProject.versions p)
  | _ => throw TypeError
  end.

Module Versions.
(** [versions.open(handle)] *)
Definition open (versions : loc) (handle : Version_Handle) : M (Promise loc) :=
  o <- deref versions ;;
  match o with
  | ORestProject_Versions c => RestProject.Versions.open c handle
  | _ => throw TypeError
  end.

(** [versions.restore(handle, name, description)] *)
Definition restore (versions : loc) (handle : Version_Handle)
    (name description : option string) : M (Promise loc) :=
  o <- deref versions ;;
  match o with
  | ORestProject_Versions c => RestProject.Versions.restore c handle name description
  | _ => throw TypeError
  end.
End Versions.

Module Brief.
(** [constructor(handle, name, user)] *)
Definition new (handle : Project_Handle) (name : string) (user : loc) : M loc :=
  construct (fun _ =>
    [OProject_Brief {| Project_Brief_user_ := user;
                       Project_Brief_name_ := name;
                       Project_Brief_handle_ := handle |}]).

Definition user (this : Project_Brief) : loc := Project_Brief_user_ this.
Definition name (this : Project_Brief) : string := Project_Brief_name_ this.
Definition handle (this : Project_Brief) : Project_Handle := Project_Brief_handle_ this.

(** [return this.user_.projects.open(this.handle_);] *)
Definition open (this : Project_Brief) : M (Promise loc) :=
  projects <- User.projects (Project_Brief_user_ this) ;;
  User.Projects.open projects (Project_Brief_handle_ this).
End Brief.
End Project.

Module Version.
(** [version.files] *)
Definition files (version : loc) : M loc :=
  o <- deref version ;;
  match o with
  | ORestVersion v => ret (RestVersion.files v)
  | _ => throw TypeError
  end.

Module Files.
(** [files.open(handle)] *)
Definition open (files : loc) (handle : File_Handle) : M (Promise loc) :=
  o <- deref files ;;
  match o with
  | ORestVersion_Files c => RestVersion.Files.open c handle
  | _ => throw TypeError
  end.
End Files.

Module Brief.
Definition project (this : Version_Brief) : loc := Version_Brief_project_ this.
Definition handle (this : Version_Brief) : Version_Handle := Version_Brief_handle_ this.
Definition name (this : Version_Brief) : string := Version_Brief_name_ this.
Definition description (this : Version_Brief) : option string :=
  Version_Brief_description_ this.

(** [return this.project_.versions.open(this.handle_);] *)
Definition open (this : Version_Brief) : M (Promise loc) :=
  versions <- Project.versions (Version_Brief_project_ this) ;;
  Project.Versions.open versions (Version_Brief_handle_ this).

(** [return this.project_.versions.restore(this.handle_, name, description);] *)
Definition restore (this : Version_Brief) (name description : option string)
    : M (Promise loc) :=
  versions <- Project.versions (Version_Brief_project_ this) ;;
  Project.Versions.restore versions (Version_Brief_handle_ this) name description.
End Brief.
End Version.

Module File.
Module Brief.
Definition version (this : File_Brief) : loc := File_Brief_version_ this.
Definition path (this : File_Brief) : string := File_Brief_path_ this.
Definition handle (this : File_Brief) : File_Handle := File_Brief_handle_ this.

(** [return this.version_.files.open(this.handle_);] *)
Definition open (this : File_Brief) : M (Promise loc) :=
  files <- Version.files (File_Brief_version_ this) ;;
  Version.Files.open files (File_Brief_handle_ this).
End Brief.
End File.

(** ** Method calls on a reference

    [o.m(args)] with [o] a reference: the method is looked up by name on the
    class of the object.  The result is a JavaScript value: a string, an
    array, an object reference, or [undefined] for a method that returns
    nothing. *)

Inductive call :=
| Call_path
| Call_move (path : string)
| Call_read
| Call_update (contents : string)
| Call_close
| Call_name
| Call_list
| Call_create (name : string) (description : option string)
| Call_restore (handle : string) (name description : option string)
| Call_open (handle : string)
| Call_delete (handle : string)
| Call_login (username password : string).

Definition Promise_map {A B} (f : A -> B) (p : Promise A) : Promise B :=
  match p with
  | Fulfilled a => Fulfilled (f a)
  | Rejected e => Rejected e
  end.

Definition returning {A} (f : A -> value) (m : M (Promise A)) : M (Promise value) :=
  p <- m ;; ret (Promise_map f p).

Definition of_void (_ : unit) : value := VUndefined.

Definition of_optional_string (o : option string) : value :=
  match o with
  | Some s => VString s
  | None => VUndefined
  end.

Definition of_objects (ls : list loc) : value := VArray (map VObject ls).

(** The method [c] of the object [o] found at [this], if its class has one. *)
Definition method (env : Env) (this : loc) (o : obj) (c : call)
    : option (M (Promise value)) :=
  match o, c with
  | ORestFile f, Call_path => Some (returning VString (RestFile.path f))
  | ORestFile f, Call_move path => Some (returning of_void (RestFile.move f path))
  | ORestFile f, Call_read => Some (returning VString (RestFile.read f))
  | ORestFile f, Call_update contents =>
      Some (returning of_void (RestFile.update f contents))
  | ORestFile f, Call_close => Some (returning of_void (RestFile.close f))
  | ORestVersion_Files fs, Call_list =>
      Some (returning of_objects (RestVersion.Files.list fs))
  | ORestVersion_Files fs, Call_create path _ =>
      Some (returning VObject (RestVersion.Files.create fs path))
  | ORestVersion_Files fs, Call_open handle =>
      Some (returning VObject (RestVersion.Files.open fs handle))
  | ORestProject p, Call_name =>
      Some (returning of_optional_string (RestProject.name env p))
  | ORestProject p, Call_close => Some (returning of_void (RestProject.close p))
  | ORestProject_Versions vs, Call_list =>
      Some (returning of_objects (RestProject.Versions.list vs))
  | ORestProject_Versions vs, Call_create name description =>
      Some (returning VObject (RestProject.Versions.create vs name description))
  | ORestProject_Versions vs, Call_restore handle name description =>
      Some (returning VObject (RestProject.Versions.restore vs handle name description))
  | ORestProject_Versions vs, Call_open handle =>
      Some (returning VObject (RestProject.Versions.open vs handle))
  | ORestUser_Projects ps, Call_list =>
      Some (returning of_objects (RestUser.Projects.list ps))
  | ORestUser_Projects ps, Call_create name _ =>
      Some (returning VObject (RestUser.Projects.create ps name))
  | ORestUser_Projects ps, Call_open handle =>
      Some (returning VObject (RestUser.Projects.open ps handle))
  | ORestUser_Projects ps, Call_delete handle =>
      Some (returning of_void (RestUser.Projects.delete ps handle))
  | ORestClient _, Call_login username password =>
      Some (returning VObject (RestClient.login this username password))
  | OProject_Brief b, Call_open _ => Some (returning VObject (Project.Brief.open b))
  | OVersion_Brief b, Call_open _ => Some (returning VObject (Version.Brief.open b))
  | OVersion_Brief b, Call_restore _ name description =>
      Some (returning VObject (Version.Brief.restore b name description))
  | OFile_Brief b, Call_open _ => Some (returning VObject (File.Brief.open b))
  | _, _ => None
  end.

Definition invoke (env : Env) (this : loc) (c : call) : M (Promise value) :=
  o <- deref this ;;
  match method env this o c with
  | Some m => m
  | None => throw TypeError
  end.

(** The methods of the REST backend proper, as opposed to those of the
    [Brief] classes of [index.ts]. *)
Definition is_rest_object (o : obj) : bool :=
  match o with
  | OFile_Brief _ | OVersion_Brief _ | OProject_Brief _ => false
  | _ => true
  end.

(** What a placeholder returns: an empty string, an empty list, or
    nothing. *)
Definition is_placeholder (v : value) : bool :=
  match v with
  | VUndefined => true
  | VString s => String.eqb s ""
  | VArray [] => true
  | _ => false
  end.

(** The calls whose REST method constructs an entity. *)
Definition constructs_entity (c : call) : bool :=
  match c with
  | Call_create _ _ | Call_restore _ _ _ | Call_open _ | Call_login _ _ => true
  | _ => false
  end.

(** ** Declared members

    The member declarations of the entity interfaces of [index.ts] and of
    the classes of [Rest.ts] that implement them, as tables. *)

Inductive entity := EFile | EVersion | EProject | EUser | EOrganization.

#[global] Instance entity_eq_dec : EqDecision entity.
Proof. solve_decision. Defined.

Inductive member_kind := Property | Method.

#[global] Instance member_kind_eq_dec : EqDecision member_kind.
Proof. solve_decision. Defined.

Record member := {
  member_name : string;
  member_kind_of : member_kind;
  member_readonly : bool
}.

Definition property (name : string) : member :=
  {| member_name := name; member_kind_of := Property; member_readonly := false |}.
Definition readonly_property (name : string) : member :=
  {| member_name := name; member_kind_of := Property; member_readonly := true |}.
Definition method_member (name : string) : member :=
  {| member_name := name; member_kind_of := Method; member_readonly := false |}.

(** [interface File], [interface Version], [interface Project],
    [interface User], [interface Organization]. *)
Definition interface_members (e : entity) : list member :=
  match e with
  | EFile =>
      [readonly_property "handle"; method_member "path"; method_member "move";
       method_member "read"; method_member "update"; method_member "close"]
  | EVersion =>
      [property "handle"; property "files"]
  | EProject =>
      [property "handle"; method_member "name"; property "versions";
       method_member "close"]
  | EUser =>
      [property "handle"; method_member "name"; method_member "email";
       method_member "setEmail"; property "projects"; property "organizations"]
  | EOrganization =>
      [method_member "name"; method_member "description"; property "users"]
  end.

Inductive class_member_kind := PrivateField | Getter | Setter | AsyncMethod.

#[global] Instance class_member_kind_eq_dec : EqDecision class_member_kind.
Proof. solve_decision. Defined.

(** [class RestFile], [class RestVersion], [class RestProject],
    [class RestUser]; no class of [Rest.ts] implements [Organization]. *)
Definition rest_class_members (e : entity) : list (string * class_member_kind) :=
  match e with
  | EFile =>
      [("version_", PrivateField); ("handle_", PrivateField);
       ("version", Getter); ("handle", Getter);
       ("path", AsyncMethod); ("move", AsyncMethod); ("read", AsyncMethod);
       ("update", AsyncMethod); ("close", AsyncMethod)]
  | EVersion =>
      [("handle_", PrivateField); ("project_", PrivateField); ("files_", PrivateField);
       ("handle", Getter); ("project", Getter); ("files", Getter)]
  | EProject =>
      [("user_", PrivateField); ("handle_", PrivateField); ("name_", PrivateField);
       ("versions_", PrivateField);
       ("user", Getter); ("handle", Getter); ("name", AsyncMethod);
       ("versions", Getter); ("close", AsyncMethod)]
  | EUser =>
      [("client_", PrivateField); ("token_", PrivateField); ("projects_", PrivateField);
       ("client", Getter); ("projects", Getter)]
  | EOrganization => []
  end.

Definition has_member (name : string) (k : member_kind) (ro : bool)
    (ms : list member) : bool :=
  existsb (fun m =>
    String.eqb (member_name m) name
    && bool_decide (member_kind_of m = k)
    && Bool.eqb (member_readonly m) ro) ms.

Definition has_class_member (name : string) (k : class_member_kind)
    (ms : list (string * class_member_kind)) : bool :=
  existsb (fun m => String.eqb (fst m) name && bool_decide (snd m = k)) ms.

(** The interface of [e] declares [handle], with or without [readonly]. *)
Definition declares_handle (e : entity) : bool :=
  has_member "handle" Property true (interface_members e)
  || has_member "handle" Property false (interface_members e).

(** The interface of [e] declares [readonly handle]. *)
Definition declares_readonly_handle (e : entity) : bool :=
  has_member "handle" Property true (interface_members e).

(** The REST class of [e] has a [handle] getter and no setter for it: the
    property can be read and not assigned. *)
Definition rest_exposes_readonly_handle (e : entity) : bool :=
  has_class_member "handle" Getter (rest_class_members e)
  && negb (has_class_member "handle" Setter (rest_class_members e)).

(** ** A session

    The session of the repository's test script: a client with the default
    URL, a login, a project, a version and a file opened by handle. *)

Record session := {
  session_client : loc;
  session_user : loc;
  session_projects : loc;
  session_project : loc;
  session_versions : loc;
  session_version : loc;
  session_files : loc;
  session_file : loc
}.

Definition open_session : M session :=
  rest <- RestClient.new None ;;
  p <- RestClient.login rest "" "" ;;
  user <- await p ;;
  projects <- User.projects user ;;
  p <- User.Projects.open projects "asdasd" ;;
  project <- await p ;;
  versions <- Project.versions project ;;
  p <- Project.Versions.open versions "asdasdds" ;;
  version <- await p ;;
  files <- Version.files version ;;
  p <- Version.Files.open files "f" ;;
  file <- await p ;;
  ret {| session_client := rest; session_user := user;
         session_projects := projects; session_project := project;
         session_versions := versions; session_version := version;
         session_files := files; session_file := file |}.

Definition session_heap : heap := snd (open_session []).

(** ** Vocabulary of the statements *)

(** Every object of [s] is still there, unchanged, in [s']. *)
Definition preserved (s s' : heap) : Prop :=
  forall (l : loc) (o : obj), s !! l = Some o -> s' !! l = Some o.

(** [m], run in [s], fulfils with a reference to a [RestFile] that did not
    exist in [s], leaves the objects of [s] as they were, and the file has
    the given handle and version. *)
Definition returns_new_RestFile (m : M (Promise loc)) (s : heap)
    (handle : File_Handle) (version : loc) : Prop :=
  exists (l : loc) (s' : heap) (f : RestFile),
    m s = (Ok (Fulfilled l), s')
    /\ s !! l = None
    /\ preserved s s'
    /\ s' !! l = Some (ORestFile f)
    /\ RestFile.handle f = handle
    /\ RestFile.version f = version.

(** The same for a [RestVersion]; its [files] collection is new as well and
    refers back to it. *)
Definition returns_new_RestVersion (m : M (Promise loc)) (s : heap)
    (handle : Version_Handle) (project : loc) : Prop :=
  exists (l : loc) (s' : heap) (v : RestVersion),
    m s = (Ok (Fulfilled l), s')
    /\ s !! l = None
    /\ preserved s s'
    /\ s' !! l = Some (ORestVersion v)
    /\ RestVersion.handle v = handle
    /\ RestVersion.project v = project
    /\ s !! RestVersion.files v = None
    /\ s' !! RestVersion.files v
         = Some (ORestVersion_Files {| RestVersion_Files_version_ := l |}).

(** The classes with a [close] method. *)
Definition has_close (o : obj) : bool :=
  match o with
  | ORestFile _ | ORestProject _ => true
  | _ => false
  end.

(** An entity exposes a readonly [handle] when its interface declares one
    as [readonly], or when its REST class offers one through a getter
    without a setter. *)
Definition exposes_readonly_handle (e : entity) : bool :=
  declares_readonly_handle e || rest_exposes_readonly_handle e.

(** ** Well-formed heaps

    What the types of the fields promise: every reference held by an object
    leads to an object of the declared class, and an entity and its
    collection refer to each other. *)
Definition well_formed_at (s : heap) (l : loc) (o : obj) : Prop :=
  match o with
  | OFile_Brief b =>
      exists v, s !! File_Brief_version_ b = Some (ORestVersion v)
  | OVersion_Brief b =>
      exists p, s !! Version_Brief_project_ b = Some (ORestProject p)
  | OProject_Brief b =>
      exists u, s !! Project_Brief_user_ b = Some (ORestUser u)
  | ORestFile f =>
      exists v, s !! RestFile_version_ f = Some (ORestVersion v)
  | ORestVersion v =>
      (exists p, s !! RestVersion_project_ v = Some (ORestProject p))
      /\ s !! RestVersion_files_ v
         = Some (ORestVersion_Files {| RestVersion_Files_version_ := l |})
  | ORestVersion_Files c =>
      exists v, s !! RestVersion_Files_version_ c = Some (ORestVersion v)
                /\ RestVersion_files_ v = l
  | ORestProject p =>
      (exists u, s !! RestProject_user_ p = Some (ORestUser u))
      /\ s !! RestProject_versions_ p
         = Some (ORestProject_Versions {| RestProject_Versions_project_ := l |})
  | ORestProject_Versions c =>
      exists p, s !! RestProject_Versions_project_ c = Some (ORestProject p)
                /\ RestProject_versions_ p = l
  | ORestUser u =>
      (exists c, s !! RestUser_client_ u = Some (ORestClient c))
      /\ s !! RestUser_projects_ u
         = Some (ORestUser_Projects {| RestUser_Projects_user_ := l |})
  | ORestUser_Projects c =>
      exists u, s !! RestUser_Projects_user_ c = Some (ORestUser u)
                /\ RestUser_projects_ u = l
  | ORestClient _ => True
  end.

Definition well_formed (s : heap) : Prop :=
  forall (l : loc) (o : obj), s !! l = Some o -> well_formed_at s l o.

(** *** Credentials

    The backend holds no account data; the valid credentials of the service
    are a parameter of the statement. *)

(** The specification's requirement on [login], for a service whose valid
    credentials are the pairs of [accounts]: any other pair is rejected with
    an authentication error. *)
Definition login_rejects_all_but (accounts : list (string * string)) : Prop :=
  forall (client : loc) (username password : string) (s : heap),
    ~ In (username, password) accounts ->
    exists s' : heap,
      RestClient.login client username password s
      = (Ok (Rejected AuthenticationFailed), s').

(** ** Awaited navigation

    The expressions of the test script, [await rest.login(u, p)],
    [await user.projects.open(h)], [await project.versions.open(h)] and
    [await version.files.open(h)], for any arguments. *)

Definition login_as (client : loc) (username password : string) : M loc :=
  p <- RestClient.login client username password ;;
  await p.

Definition open_project (user : loc) (handle : Project_Handle) : M loc :=
  projects <- User.projects user ;;
  p <- User.Projects.open projects handle ;;
  await p.

Definition open_version (project : loc) (handle : Version_Handle) : M loc :=
  versions <- Project.versions project ;;
  p <- Project.Versions.open versions handle ;;
  await p.

Definition open_file (version : loc) (handle : File_Handle) : M loc :=
  files <- Version.files version ;;
  p <- Version.Files.open files handle ;;
  await p.

(** ** Programs over the backend

    The heaps a program can reach that constructs clients and project
    briefs (the two classes with a public constructor a caller has the
    arguments for) and otherwise only calls methods. *)
Inductive reachable (env : Env) : heap -> Prop :=
| reachable_empty :
    reachable env []
| reachable_client (s : heap) (url : option string) :
    reachable env s ->
    reachable env (snd (RestClient.new url s))
| reachable_brief (s : heap) (handle : Project_Handle) (name : string)
    (user : loc) (u : RestUser) :
    reachable env s ->
    s !! user = Some (ORestUser u) ->
    reachable env (snd (Project.Brief.new handle name user s))
| reachable_invoke (s : heap) (this : loc) (c : call) :
    reachable env s ->
    reachable env (snd (invoke env this c s)).

(** What a method may construct: files, versions, projects without a name,
    users with the empty token, and their collections; never a brief and
    never a client. *)
Definition made_by_a_method (o : obj) : bool :=
  match o with
  | OFile_Brief _ | OVersion_Brief _ | OProject_Brief _ | ORestClient _ => false
  | ORestProject p => bool_decide (RestProject_name_ p = None)
  | ORestUser u => String.eqb (RestUser_token_ u) ""
  | _ => true
  end.

(** The calls that neither construct anything nor read the global scope. *)
Definition is_inert (c : call) : bool :=
  match c with
  | Call_path | Call_move _ | Call_read | Call_update _ | Call_close
  | Call_list | Call_delete _ => true
  | _ => false
  end.

(** The collections: the objects with [list], [create] and [open]. *)
Definition is_collection (o : obj) : bool :=
  match o with
  | ORestVersion_Files _ | ORestProject_Versions _ | ORestUser_Projects _ => true
  | _ => false
  end.

(** The [handle] getter of an entity, and the getter of its parent
    ([file.version], [version.project], [project.user], [user.client]). *)
Definition handle_of (o : obj) : option string :=
  match o with
  | ORestFile f => Some (RestFile.handle f)
  | ORestVersion v => Some (RestVersion.handle v)
  | ORestProject p => Some (RestProject.handle p)
  | _ => None
  end.

Definition parent_of (o : obj) : option loc :=
  match o with
  | ORestFile f => Some (RestFile.version f)
  | ORestVersion v => Some (RestVersion.project v)
  | ORestProject p => Some (RestProject.user p)
  | ORestUser u => Some (RestUser.client u)
  | _ => None
  end.

(** The [handle] getter of a brief, and the getter of the entity it hangs
    off ([brief.version], [brief.project], [brief.user]). *)
Definition brief_handle (o : obj) : option string :=
  match o with
  | OFile_Brief b => Some (File.Brief.handle b)
  | OVersion_Brief b => Some (Version.Brief.handle b)
  | OProject_Brief b => Some (Project.Brief.handle b)
  | _ => None
  end.

Definition brief_parent (o : obj) : option loc :=
  match o with
  | OFile_Brief b => Some (File.Brief.version b)
  | OVersion_Brief b => Some (Version.Brief.project b)
  | OProject_Brief b => Some (Project.Brief.user b)
  | _ => None
  end.

(** * Properties *)

(** ** The session, run from the empty heap *)

Example open_session_result :
  open_session [] =
    (Ok {| session_client := 0; session_user := 1; session_projects := 2;
           session_project := 3; session_versions := 4; session_version := 5;
           session_files := 6; session_file := 7 |},
     [ORestClient {| RestClient_url_ := "https://api.kipr.org" |};
      ORestUser {| RestUser_client_ := 0; RestUser_token_ := "";
                   RestUser_projects_ := 2 |};
      ORestUser_Projects {| RestUser_Projects_user_ := 1 |};
      ORestProject {| RestProject_user_ := 1; RestProject_handle_ := "asdasd";
                      RestProject_name_ := None; RestProject_versions_ := 4 |};
      ORestProject_Versions {| RestProject_Versions_project_ := 3 |};
      ORestVersion {| RestVersion_handle_ := "asdasdds";
                      RestVersion_project_ := 3; RestVersion_files_ := 6 |};
      ORestVersion_Files {| RestVersion_Files_version_ := 5 |};
      ORestFile {| RestFile_version_ := 5; RestFile_handle_ := "f" |}]).
Proof. reflexivity. Qed.

(** ** The heap under construction *)

Lemma preserved_refl (s : heap) : preserved s s.
Proof. intros l o H. exact H. Qed.

Lemma preserved_app (s : heap) (os : list obj) : preserved s (s ++ os).
Proof. intros l o H. now apply lookup_app_l_Some. Qed.

Lemma preserved_trans (s1 s2 s3 : heap) :
  preserved s1 s2 -> preserved s2 s3 -> preserved s1 s3.
Proof. intros H12 H23 l o H. apply H23, H12, H. Qed.

Lemma next_location_free (s : heap) : s !! length s = None.
Proof. apply lookup_ge_None_2. lia. Qed.

Lemma lookup_first_new (s : heap) (o : obj) (os : list obj) :
  (s ++ o :: os) !! length s = Some o.
Proof. now apply list_lookup_middle. Qed.

Lemma lookup_second_new (s : heap) (o1 o2 : obj) (os : list obj) :
  (s ++ o1 :: o2 :: os) !! S (length s) = Some o2.
Proof.
  rewrite lookup_app_r by lia.
  replace (S (length s) - length s) with 1 by lia.
  reflexivity.
Qed.

Lemma construct_spec (mk : loc -> list obj) (s : heap) :
  construct mk s = (Ok (length s), s ++ mk (length s)).
Proof. reflexivity. Qed.

Lemma async_construct (mk : loc -> list obj) (s : heap) :
  async (construct mk) s = (Ok (Fulfilled (length s)), s ++ mk (length s)).
Proof. reflexivity. Qed.

(** ** What the constructing methods return *)

Lemma RestFile_new_returns (handle : File_Handle) (version : loc) (s : heap) :
  returns_new_RestFile (async (RestFile.new handle version)) s handle version.
Proof.
  unfold RestFile.new. eexists _, _, _.
  rewrite async_construct.
  split; [reflexivity|].
  split; [apply next_location_free|].
  split; [apply preserved_app|].
  split; [apply lookup_first_new|].
  split; reflexivity.
Qed.

Lemma RestVersion_new_returns (handle : Version_Handle) (project : loc) (s : heap) :
  returns_new_RestVersion (async (RestVersion.new handle project)) s handle project.
Proof.
  unfold RestVersion.new. eexists _, _, _.
  rewrite async_construct.
  split; [reflexivity|].
  split; [apply next_location_free|].
  split; [apply preserved_app|].
  split; [apply lookup_first_new|].
  split; [reflexivity|].
  split; [reflexivity|].
  split; [apply lookup_ge_None_2; simpl; lia|].
  apply lookup_second_new.
Qed.

(** C10: [RestVersion.Files.open(h)], [RestProject.Versions.open(h)] and
    [RestProject.Versions.restore(h)] each return a newly constructed entity
    whose handle is [h] and whose parent is the parent of the collection;
    [restore] therefore hands back the handle it was given, whatever name
    and description come with it; and [RestVersion.Files.create(path)]
    returns a new file whose handle is the empty string, whatever the
    path. *)
Theorem C10_open_restore_create_return_new_entities :
  forall (s : heap),
    (forall (files : RestVersion_Files) (h : File_Handle),
        returns_new_RestFile (RestVersion.Files.open files h) s
          h (RestVersion_Files_version_ files))
    /\ (forall (versions : RestProject_Versions) (h : Version_Handle),
        returns_new_RestVersion (RestProject.Versions.open versions h) s
          h (RestProject_Versions_project_ versions))
    /\ (forall (versions : RestProject_Versions) (h : Version_Handle)
               (name description : option string),
        returns_new_RestVersion
          (RestProject.Versions.restore versions h name description) s
          h (RestProject_Versions_project_ versions))
    /\ (forall (files : RestVersion_Files) (path : string),
        returns_new_RestFile (RestVersion.Files.create files path) s
          "" (RestVersion_Files_version_ files)).
Proof.
  intros s. split; [|split; [|split]].
  - intros files h. apply RestFile_new_returns.
  - intros versions h. apply RestVersion_new_returns.
  - intros versions h name description. apply RestVersion_new_returns.
  - intros files path. apply RestFile_new_returns.
Qed.

(** ** Briefs *)

(** C1: opening a brief is opening its handle in the parent collection: a
    file brief opens as [version.files.open(handle)], a version brief as
    [project.versions.open(handle)], a project brief as
    [user.projects.open(handle)], where [version], [project], [user] and
    [handle] are what the brief exposes. *)
Theorem C1_brief_open_is_collection_open :
  (forall (brief : File_Brief) (s : heap),
      File.Brief.open brief s
      = (files <- Version.files (File.Brief.version brief) ;;
         Version.Files.open files (File.Brief.handle brief)) s)
  /\ (forall (brief : Version_Brief) (s : heap),
      Version.Brief.open brief s
      = (versions <- Project.versions (Version.Brief.project brief) ;;
         Project.Versions.open versions (Version.Brief.handle brief)) s)
  /\ (forall (brief : Project_Brief) (s : heap),
      Project.Brief.open brief s
      = (projects <- User.projects (Project.Brief.user brief) ;;
         User.Projects.open projects (Project.Brief.handle brief)) s).
Proof.
  split; [|split]; intros brief s.
  - unfold File.Brief.open, File.Brief.version, File.Brief.handle. reflexivity.
  - unfold Version.Brief.open, Version.Brief.project, Version.Brief.handle. reflexivity.
  - unfold Project.Brief.open, Project.Brief.user, Project.Brief.handle. reflexivity.
Qed.

(** The equality is one of computations run from the same state.  Run one
    after the other, two opens of one handle give two objects, equal in
    their fields and distinct in identity. *)
Lemma open_twice_gives_two_objects (files : RestVersion_Files)
    (h : File_Handle) (s : heap) :
  (p <- RestVersion.Files.open files h ;;
   a <- await p ;;
   q <- RestVersion.Files.open files h ;;
   b <- await q ;;
   ret (a, b)) s
  = (Ok (length s, S (length s)),
     s ++ [ORestFile {| RestFile_version_ := RestVersion_Files_version_ files;
                        RestFile_handle_ := h |};
           ORestFile {| RestFile_version_ := RestVersion_Files_version_ files;
                        RestFile_handle_ := h |}]).
Proof.
  unfold bind, RestVersion.Files.open, RestFile.new, async, construct, await, ret.
  simpl. rewrite length_app, <- app_assoc. simpl.
  rewrite Nat.add_1_r. reflexivity.
Qed.

(** On the REST backend a brief therefore opens to a new entity that carries
    the brief's handle and hangs off the brief's parent. *)
Lemma File_Brief_open_on_RestVersion (brief : File_Brief) (s : heap)
    (v : RestVersion) (files : RestVersion_Files) :
  s !! File.Brief.version brief = Some (ORestVersion v) ->
  s !! RestVersion.files v = Some (ORestVersion_Files files) ->
  File.Brief.open brief s
  = RestVersion.Files.open files (File.Brief.handle brief) s.
Proof.
  intros Hv Hfiles.
  unfold File.Brief.open, Version.files, Version.Files.open, bind, deref.
  unfold File.Brief.version in Hv. rewrite Hv. simpl.
  rewrite Hfiles. reflexivity.
Qed.

Lemma Version_Brief_open_on_RestProject (brief : Version_Brief) (s : heap)
    (p : RestProject) (versions : RestProject_Versions) :
  s !! Version.Brief.project brief = Some (ORestProject p) ->
  s !! RestProject.versions p = Some (ORestProject_Versions versions) ->
  Version.Brief.open brief s
  = RestProject.Versions.open versions (Version.Brief.handle brief) s.
Proof.
  intros Hp Hversions.
  unfold Version.Brief.open, Project.versions, Project.Versions.open, bind, deref.
  unfold Version.Brief.project in Hp. rewrite Hp. simpl.
  rewrite Hversions. reflexivity.
Qed.

Lemma Project_Brief_open_on_RestUser (brief : Project_Brief) (s : heap)
    (u : RestUser) (projects : RestUser_Projects) :
  s !! Project.Brief.user brief = Some (ORestUser u) ->
  s !! RestUser.projects u = Some (ORestUser_Projects projects) ->
  Project.Brief.open brief s
  = RestUser.Projects.open projects (Project.Brief.handle brief) s.
Proof.
  intros Hu Hprojects.
  unfold Project.Brief.open, User.projects, User.Projects.open, bind, deref.
  unfold Project.Brief.user in Hu. rewrite Hu. simpl.
  rewrite Hprojects. reflexivity.
Qed.

(** ** Well-formedness is kept

    Every constructing method of the backend, called on a collection of a
    well-formed heap, leaves the heap well-formed; the [TypeError] branches
    of the dispatch are therefore never taken in a session. *)

Lemma well_formed_at_preserved (s s' : heap) (l : loc) (o : obj) :
  preserved s s' -> well_formed_at s l o -> well_formed_at s' l o.
Proof.
  intros Hp. destruct o; simpl; try tauto.
  - intros [v Hv]. exists v. now apply Hp.
  - intros [p H]. exists p. now apply Hp.
  - intros [u H]. exists u. now apply Hp.
  - intros [v Hv]. exists v. now apply Hp.
  - intros [[p H] Hf]. split; [exists p|]; now apply Hp.
  - intros [v [Hv Hf]]. exists v. split; [now apply Hp | exact Hf].
  - intros [[u H] Hv]. split; [exists u|]; now apply Hp.
  - intros [p [H Hv]]. exists p. split; [now apply Hp | exact Hv].
  - intros [[c H] Hp']. split; [exists c|]; now apply Hp.
  - intros [u [H Hp']]. exists u. split; [now apply Hp | exact Hp'].
Qed.

Lemma well_formed_extend (s news : heap) :
  well_formed s ->
  (forall (i : nat) (o : obj),
      news !! i = Some o -> well_formed_at (s ++ news) (length s + i) o) ->
  well_formed (s ++ news).
Proof.
  intros Hs Hnews l o Hl.
  apply lookup_app_Some in Hl as [Hl | [Hge Hl]].
  - apply well_formed_at_preserved with (s := s).
    + apply preserved_app.
    + now apply Hs.
  - replace l with (length s + (l - length s)) by lia.
    now apply Hnews.
Qed.

Lemma well_formed_empty : well_formed [].
Proof. intros l o H. discriminate H. Qed.

Lemma well_formed_RestClient_new (url : option string) (s : heap) :
  well_formed s -> well_formed (snd (RestClient.new url s)).
Proof.
  intros Hs. apply well_formed_extend; [exact Hs|].
  intros [|i] o Ho; [|discriminate Ho].
  injection Ho as <-. exact I.
Qed.

Lemma well_formed_login (client : loc) (c : RestClient)
    (username password : string) (s : heap) :
  well_formed s ->
  s !! client = Some (ORestClient c) ->
  well_formed (snd (RestClient.login client username password s)).
Proof.
  intros Hs Hc. apply well_formed_extend; [exact Hs|].
  intros [|[|i]] o Ho; try discriminate Ho; injection Ho as <-; simpl.
  - split.
    + exists c. now apply preserved_app.
    + rewrite Nat.add_0_r. apply lookup_second_new.
  - eexists. split.
    + apply lookup_first_new.
    + simpl. lia.
Qed.

Lemma well_formed_RestProject_new (handle : Project_Handle) (user : loc)
    (u : RestUser) (s : heap) :
  well_formed s ->
  s !! user = Some (ORestUser u) ->
  well_formed (snd (RestProject.new handle user s)).
Proof.
  intros Hs Hu. apply well_formed_extend; [exact Hs|].
  intros [|[|i]] o Ho; try discriminate Ho; injection Ho as <-; simpl.
  - split.
    + exists u. now apply preserved_app.
    + rewrite Nat.add_0_r. apply lookup_second_new.
  - eexists. split.
    + apply lookup_first_new.
    + simpl. lia.
Qed.

Lemma well_formed_RestVersion_new (handle : Version_Handle) (project : loc)
    (p : RestProject) (s : heap) :
  well_formed s ->
  s !! project = Some (ORestProject p) ->
  well_formed (snd (RestVersion.new handle project s)).
Proof.
  intros Hs Hp. apply well_formed_extend; [exact Hs|].
  intros [|[|i]] o Ho; try discriminate Ho; injection Ho as <-; simpl.
  - split.
    + exists p. now apply preserved_app.
    + rewrite Nat.add_0_r. apply lookup_second_new.
  - eexists. split.
    + apply lookup_first_new.
    + simpl. lia.
Qed.

Lemma well_formed_RestFile_new (handle : File_Handle) (version : loc)
    (v : RestVersion) (s : heap) :
  well_formed s ->
  s !! version = Some (ORestVersion v) ->
  well_formed (snd (RestFile.new handle version s)).
Proof.
  intros Hs Hv. apply well_formed_extend; [exact Hs|].
  intros [|i] o Ho; [|discriminate Ho].
  injection Ho as <-. simpl. exists v. now apply preserved_app.
Qed.

(** In a well-formed heap a file brief opens without an exception, to a new
    file with the brief's handle in the brief's version, and the heap stays
    well-formed. *)
Lemma File_Brief_open_well_formed (l : loc) (brief : File_Brief) (s : heap) :
  well_formed s ->
  s !! l = Some (OFile_Brief brief) ->
  returns_new_RestFile (File.Brief.open brief) s
    (File.Brief.handle brief) (File.Brief.version brief)
  /\ well_formed (snd (File.Brief.open brief s)).
Proof.
  intros Hs Hl.
  destruct (Hs l _ Hl) as [v Hv].
  destruct (Hs _ _ Hv) as [_ Hfiles].
  pose proof (File_Brief_open_on_RestVersion brief s v _ Hv Hfiles) as Hopen.
  split.
  - unfold returns_new_RestFile. rewrite Hopen.
    apply (RestFile_new_returns (File.Brief.handle brief) (File.Brief.version brief) s).
  - rewrite Hopen. apply (well_formed_RestFile_new _ _ v s Hs Hv).
Qed.

Lemma session_heap_well_formed : well_formed session_heap.
Proof.
  assert (H0 : well_formed (snd (RestClient.new None []))).
  { apply well_formed_RestClient_new, well_formed_empty. }
  assert (H1 : well_formed (snd (RestClient.login 0 "" "" (snd (RestClient.new None []))))).
  { eapply well_formed_login; [exact H0 | reflexivity]. }
  assert (H2 : well_formed (snd (RestProject.new "asdasd" 1
                 (snd (RestClient.login 0 "" "" (snd (RestClient.new None []))))))).
  { eapply well_formed_RestProject_new; [exact H1 | reflexivity]. }
  assert (H3 : well_formed (snd (RestVersion.new "asdasdds" 3
                 (snd (RestProject.new "asdasd" 1
                   (snd (RestClient.login 0 "" "" (snd (RestClient.new None []))))))))).
  { eapply well_formed_RestVersion_new; [exact H2 | reflexivity]. }
  eapply (well_formed_RestFile_new "f" 5) in H3; [exact H3 | reflexivity].
Qed.

(** ** Files *)

(** C2, as the code has it: [update] stores nothing and [read] returns the
    empty string, so reading after [update(contents)] yields [""] whatever
    [contents] was, and the heap is as before. *)
Theorem C2_read_after_update_returns_empty_string :
  forall (F : RestFile) (contents : string) (s : heap),
    (p <- RestFile.update F contents ;;
     _ <- await p ;;
     q <- RestFile.read F ;;
     await q) s
    = (Ok "", s).
Proof. intros F contents s. reflexivity. Qed.

(** The write of the test script, read back. *)
Example read_after_update_asdasdsad :
  fst ((p <- RestFile.update {| RestFile_version_ := 5; RestFile_handle_ := "f" |}
                             "asdasdsad" ;;
        _ <- await p ;;
        q <- RestFile.read {| RestFile_version_ := 5; RestFile_handle_ := "f" |} ;;
        await q) session_heap)
  <> Ok "asdasdsad".
Proof. discriminate. Qed.

(** ** Versions of a project *)

(** C3, as the code has it: [list()] is empty in every state, so right after
    [create(name)] has returned a new version the list has no element at
    index 0. *)
Theorem C3_list_is_empty_after_create :
  forall (versions : RestProject_Versions) (name : string)
         (description : option string) (s : heap),
    (p <- RestProject.Versions.create versions name description ;;
     version <- await p ;;
     q <- RestProject.Versions.list versions ;;
     briefs <- await q ;;
     ret (version, briefs !! 0)) s
    = (Ok (length s, None),
       s ++ [ORestVersion {| RestVersion_handle_ := "";
                             RestVersion_project_ :=
                               RestProject_Versions_project_ versions;
                             RestVersion_files_ := S (length s) |};
             ORestVersion_Files {| RestVersion_Files_version_ := length s |}]).
Proof. intros versions name description s. reflexivity. Qed.

(** C4, as the code has it: [restore(handle)] constructs a version object
    and changes no existing one, but [list()] stays empty, so no version
    appears at index 0. *)
Theorem C4_list_is_empty_after_restore :
  forall (versions : RestProject_Versions) (handle : Version_Handle)
         (name description : option string) (s : heap),
    (p <- RestProject.Versions.restore versions handle name description ;;
     version <- await p ;;
     q <- RestProject.Versions.list versions ;;
     briefs <- await q ;;
     ret (version, briefs !! 0)) s
    = (Ok (length s, None),
       s ++ [ORestVersion {| RestVersion_handle_ := handle;
                             RestVersion_project_ :=
                               RestProject_Versions_project_ versions;
                             RestVersion_files_ := S (length s) |};
             ORestVersion_Files {| RestVersion_Files_version_ := length s |}]).
Proof. intros versions handle name description s. reflexivity. Qed.

(** ** Creating a file twice *)

(** C5 fails on the files collection of the session: the second
    [create("/main.c")] is fulfilled with a second file, not rejected with
    [Conflict]. *)
Lemma C5_counterexample_second_create_is_fulfilled :
  session_heap !! 6 = Some (ORestVersion_Files {| RestVersion_Files_version_ := 5 |})
  /\ (p <- RestVersion.Files.create {| RestVersion_Files_version_ := 5 |} "/main.c" ;;
      _ <- await p ;;
      RestVersion.Files.create {| RestVersion_Files_version_ := 5 |} "/main.c")
       session_heap
     = (Ok (Fulfilled 9),
        session_heap
        ++ [ORestFile {| RestFile_version_ := 5; RestFile_handle_ := "" |};
            ORestFile {| RestFile_version_ := 5; RestFile_handle_ := "" |}])
  /\ Fulfilled 9 <> @Rejected loc Conflict.
Proof. split; [reflexivity|]. split; [reflexivity|]. discriminate. Qed.

(** C5, amended: [create(path)] never fails, in any state and so also when
    [create(path)] has run before: it returns a newly constructed file with
    the empty handle in the collection's version and leaves every existing
    object as it was. *)
Theorem C5_create_always_succeeds_without_overwriting :
  forall (files : RestVersion_Files) (path : string) (s : heap),
    returns_new_RestFile (RestVersion.Files.create files path) s
      "" (RestVersion_Files_version_ files)
    /\ fst (RestVersion.Files.create files path s) <> Ok (Rejected Conflict).
Proof.
  intros files path s. split.
  - apply RestFile_new_returns.
  - discriminate.
Qed.

(** ** Login *)

(** C7 fails: against a service that knows only alice with password secret,
    a login as alice with a wrong password is fulfilled with a user. *)
Lemma C7_counterexample_login_with_wrong_password :
  ~ In ("alice", "wrong") [("alice", "secret")]
  /\ RestClient.login 0 "alice" "wrong"
       [ORestClient {| RestClient_url_ := RestClient.DEFAULT_URL |}]
     = (Ok (Fulfilled 1),
        [ORestClient {| RestClient_url_ := RestClient.DEFAULT_URL |};
         ORestUser {| RestUser_client_ := 0; RestUser_token_ := "";
                      RestUser_projects_ := 2 |};
         ORestUser_Projects {| RestUser_Projects_user_ := 1 |}])
  /\ ~ login_rejects_all_but [("alice", "secret")].
Proof.
  assert (Hout : ~ In ("alice", "wrong") [("alice", "secret")]).
  { intros [H | []]. discriminate H. }
  split; [exact Hout|]. split; [reflexivity|].
  intros Hclaim.
  destruct (Hclaim 0 "alice" "wrong" [] Hout) as [s' Hs'].
  discriminate Hs'.
Qed.

(** C7, amended: [login] checks nothing.  For every username and password
    it is fulfilled with a newly constructed user that holds the empty
    token and the client it was called on; it never fails. *)
Theorem C7_login_always_returns_a_user :
  forall (client : loc) (username password : string) (s : heap),
    RestClient.login client username password s
    = (Ok (Fulfilled (length s)),
       s ++ [ORestUser {| RestUser_client_ := client; RestUser_token_ := "";
                          RestUser_projects_ := S (length s) |};
             ORestUser_Projects {| RestUser_Projects_user_ := length s |}]).
Proof. intros client username password s. reflexivity. Qed.

(** ** Closing *)

(** C6 fails on the file of the session: after [close()], [read()] is
    fulfilled with the empty string and [update] is fulfilled too; neither
    is rejected with [InvalidState]. *)
Lemma C6_counterexample_read_after_close_is_fulfilled :
  session_heap !! 7 = Some (ORestFile {| RestFile_version_ := 5; RestFile_handle_ := "f" |})
  /\ (p <- invoke {| global_name := None |} 7 Call_close ;;
      _ <- await p ;;
      invoke {| global_name := None |} 7 Call_read) session_heap
     = (Ok (Fulfilled (VString "")), session_heap)
  /\ (p <- invoke {| global_name := None |} 7 Call_close ;;
      _ <- await p ;;
      invoke {| global_name := None |} 7 (Call_update "x")) session_heap
     = (Ok (Fulfilled VUndefined), session_heap)
  /\ Fulfilled (VString "") <> Rejected InvalidState.
Proof. repeat (split; [reflexivity|]). discriminate. Qed.

Lemma invoke_at (env : Env) (this : loc) (o : obj) (c : call) (s : heap) :
  s !! this = Some o ->
  invoke env this c s
  = match method env this o c with
    | Some m => m s
    | None => (Throw TypeError, s)
    end.
Proof.
  intros H. unfold invoke, bind, deref. rewrite H.
  destruct (method env this o c); reflexivity.
Qed.

(** C6, amended: [close()] of a file or project does nothing.  It is
    fulfilled and leaves the state as it was; every call made on the object
    after [close()] gives what it gives without the [close()], and none is
    rejected with [InvalidState].  A [RestVersion] has no [close] method:
    calling it is a [TypeError]. *)
Theorem C6_calls_after_close_behave_as_before :
  forall (env : Env) (this : loc) (o : obj) (s : heap),
    s !! this = Some o ->
    (has_close o = true ->
       invoke env this Call_close s = (Ok (Fulfilled VUndefined), s)
       /\ forall c : call,
            (p <- invoke env this Call_close ;;
             _ <- await p ;;
             invoke env this c) s
            = invoke env this c s
            /\ fst (invoke env this c s) <> Ok (Rejected InvalidState))
    /\ (forall v : RestVersion,
          o = ORestVersion v ->
          invoke env this Call_close s = (Throw TypeError, s)).
Proof.
  intros env this o s Hthis. split.
  - intros Hclose.
    assert (Hc : invoke env this Call_close s = (Ok (Fulfilled VUndefined), s)).
    { rewrite (invoke_at env this o Call_close s Hthis).
      destruct o; try discriminate Hclose; reflexivity. }
    split; [exact Hc|].
    intros c. split.
    + unfold bind at 1. rewrite Hc. reflexivity.
    + rewrite (invoke_at env this o c s Hthis).
      destruct o; try discriminate Hclose.
      * destruct c; simpl; discriminate.
      * destruct c; simpl; try discriminate.
        unfold returning, bind, RestProject.name, async, bind, read_global_name.
        destruct (global_name env) as [n|]; simpl; [|discriminate].
        destruct (truthy n); simpl; discriminate.
  - intros v ->. rewrite (invoke_at env this _ Call_close s Hthis). reflexivity.
Qed.

(** The amended C6 at the file and at the version of the session. *)
Lemma C6_witness_session_file_and_version :
  (session_heap !! 7
     = Some (ORestFile {| RestFile_version_ := 5; RestFile_handle_ := "f" |})
   /\ invoke {| global_name := None |} 7 Call_close session_heap
      = (Ok (Fulfilled VUndefined), session_heap))
  /\ (session_heap !! 5
       = Some (ORestVersion {| RestVersion_handle_ := "asdasdds";
                               RestVersion_project_ := 3;
                               RestVersion_files_ := 6 |})
      /\ invoke {| global_name := None |} 5 Call_close session_heap
         = (Throw TypeError, session_heap)).
Proof.
  split; (split; [reflexivity|]).
  - apply (C6_calls_after_close_behave_as_before {| global_name := None |} 7
             (ORestFile {| RestFile_version_ := 5; RestFile_handle_ := "f" |})
             session_heap); reflexivity.
  - apply (proj2 (C6_calls_after_close_behave_as_before {| global_name := None |} 5
             (ORestVersion {| RestVersion_handle_ := "asdasdds";
                              RestVersion_project_ := 3;
                              RestVersion_files_ := 6 |})
             session_heap eq_refl)
             {| RestVersion_handle_ := "asdasdds"; RestVersion_project_ := 3;
                RestVersion_files_ := 6 |} eq_refl).
Defined.

(** ** Handles of the entities *)

(** C8 fails for two entities: [interface Organization] declares no [handle]
    at all and no class implements it, and [class RestUser] has no [handle]
    member while [interface User] declares its [handle] without
    [readonly]. *)
Lemma C8_counterexample_organization_and_user :
  declares_handle EOrganization = false
  /\ exposes_readonly_handle EOrganization = false
  /\ exposes_readonly_handle EUser = false
  /\ ~ (forall e : entity, exposes_readonly_handle e = true).
Proof.
  repeat (split; [reflexivity|]).
  intros H. specialize (H EOrganization). discriminate H.
Qed.

(** C8, amended: the interfaces [File], [Version], [Project] and [User]
    each declare a [handle], which is [readonly] on [File] only; the classes
    [RestFile], [RestVersion] and [RestProject] expose it through a getter
    without a setter, and the getter returns the handle the object was
    constructed with. *)
Theorem C8_handles_of_file_version_project :
  (declares_handle EFile = true /\ declares_handle EVersion = true
   /\ declares_handle EProject = true /\ declares_handle EUser = true)
  /\ (forall e : entity, declares_readonly_handle e = bool_decide (e = EFile))
  /\ (rest_exposes_readonly_handle EFile = true
      /\ rest_exposes_readonly_handle EVersion = true
      /\ rest_exposes_readonly_handle EProject = true)
  /\ (forall (h : File_Handle) (version : loc) (s : heap),
        exists f : RestFile,
          snd (RestFile.new h version s) !! length s = Some (ORestFile f)
          /\ RestFile.handle f = h)
  /\ (forall (h : Version_Handle) (project : loc) (s : heap),
        exists v : RestVersion,
          snd (RestVersion.new h project s) !! length s = Some (ORestVersion v)
          /\ RestVersion.handle v = h)
  /\ (forall (h : Project_Handle) (user : loc) (s : heap),
        exists p : RestProject,
          snd (RestProject.new h user s) !! length s = Some (ORestProject p)
          /\ RestProject.handle p = h).
Proof.
  split; [repeat split|].
  split; [intros []; reflexivity|].
  split; [repeat split|].
  split; [|split].
  - intros h version s. eexists. split; [apply lookup_first_new|reflexivity].
  - intros h project s. eexists. split; [apply lookup_first_new|reflexivity].
  - intros h user s. eexists. split; [apply lookup_first_new|reflexivity].
Qed.

(** ** Placeholders *)

(** The free identifier in [RestProject.name] decides what it gives: a
    [ReferenceError] rejection when the host has no global [name], the
    empty string when that global is falsy, and the never-assigned field,
    [undefined], when it is truthy. *)
Lemma RestProject_name_by_global (env : Env) (p : RestProject) (s : heap) :
  RestProject.name env p s
  = (Ok match global_name env with
        | None => Rejected ReferenceError
        | Some n => Fulfilled (if truthy n then RestProject_name_ p else Some "")
        end, s).
Proof.
  unfold RestProject.name, async, bind, read_global_name.
  destruct (global_name env) as [n|]; simpl; [|reflexivity].
  destruct (truthy n); reflexivity.
Qed.

(** C9 fails on the files collection of the session: [open("g")] returns a
    reference to a file it has constructed, which is neither an empty
    string nor an empty list nor nothing, and the heap has grown. *)
Lemma C9_counterexample_open_returns_an_entity :
  session_heap !! 6 = Some (ORestVersion_Files {| RestVersion_Files_version_ := 5 |})
  /\ invoke {| global_name := None |} 6 (Call_open "g") session_heap
     = (Ok (Fulfilled (VObject 8)),
        session_heap ++ [ORestFile {| RestFile_version_ := 5; RestFile_handle_ := "g" |}])
  /\ is_placeholder (VObject 8) = false.
Proof. repeat split. Qed.

(** C9, amended: of the methods of the REST classes other than
    [RestProject.name], those named [path], [move], [read], [update],
    [close], [list] and [delete] are placeholders (they are fulfilled with
    an empty string, an empty list or nothing, and leave the state as it
    was), and those named [create], [open], [restore] and [login] are
    fulfilled with a reference to a newly constructed entity, leaving every
    existing object as it was. *)
Theorem C9_methods_are_placeholders_or_constructors :
  forall (env : Env) (this : loc) (o : obj) (c : call)
         (m : M (Promise value)) (s : heap),
    is_rest_object o = true ->
    method env this o c = Some m ->
    c <> Call_name ->
    if constructs_entity c
    then exists (l : loc) (s' : heap),
           m s = (Ok (Fulfilled (VObject l)), s')
           /\ s !! l = None /\ preserved s s' /\ is_Some (s' !! l)
    else exists v : value,
           m s = (Ok (Fulfilled v), s) /\ is_placeholder v = true.
Proof.
  intros env this o c m s Hrest Hm Hname.
  destruct o; try discriminate Hrest;
    destruct c; simpl in Hm; try discriminate Hm;
    try (exfalso; apply Hname; reflexivity);
    injection Hm as <-; simpl;
    try (eexists; split; reflexivity);
    (exists (length s); eexists;
     split; [reflexivity|];
     split; [apply next_location_free|];
     split; [apply preserved_app|];
     rewrite lookup_first_new; eexists; reflexivity).
Qed.

(** The amended C9 at [read] on the file of the session and at [open] on
    its files collection. *)
Lemma C9_witness_read_and_open :
  (exists v : value,
      returning VString (RestFile.read {| RestFile_version_ := 5; RestFile_handle_ := "f" |})
        session_heap
      = (Ok (Fulfilled v), session_heap)
      /\ is_placeholder v = true)
  /\ (exists (l : loc) (s' : heap),
        returning VObject
          (RestVersion.Files.open {| RestVersion_Files_version_ := 5 |} "g") session_heap
        = (Ok (Fulfilled (VObject l)), s')
        /\ session_heap !! l = None /\ preserved session_heap s' /\ is_Some (s' !! l)).
Proof.
  split.
  - apply (C9_methods_are_placeholders_or_constructors {| global_name := None |} 7
             (ORestFile {| RestFile_version_ := 5; RestFile_handle_ := "f" |})
             Call_read _ session_heap eq_refl eq_refl).
    discriminate.
  - apply (C9_methods_are_placeholders_or_constructors {| global_name := None |} 6
             (ORestVersion_Files {| RestVersion_Files_version_ := 5 |})
             (Call_open "g") _ session_heap eq_refl eq_refl).
    discriminate.
Defined.

(** * Further properties of the backend *)

(** ** Every call only adds objects *)

Lemma returning_snd {A} (f : A -> value) (m : M (Promise A)) (s : heap) :
  snd (returning f m s) = snd (m s).
Proof.
  unfold returning, bind, ret. destruct (m s) as [[p|e] s']; reflexivity.
Qed.

Lemma async_snd {A} (m : M A) (s : heap) : snd (async m s) = snd (m s).
Proof. unfold async. destruct (m s) as [[a|e] s']; reflexivity. Qed.

Ltac no_new_object := exists []; rewrite app_nil_r; split; [reflexivity|]; split; [simpl; lia | constructor].

Ltac new_objects :=
  eexists; split; [reflexivity|]; split; [simpl; lia | repeat constructor].

Ltac case_lookup :=
  match goal with
  | |- context [?s !! ?l] =>
      let E := fresh "E" in
      destruct (s !! l) as [[]|] eqn:E; simpl
  end.

(** The heap after a call is the heap before, followed by what the call
    has constructed. *)
Lemma invoke_appends (env : Env) (this : loc) (c : call) (s : heap) :
  exists news : list obj,
    snd (invoke env this c s) = s ++ news
    /\ length news <= 2
    /\ Forall (fun o => made_by_a_method o = true) news.
Proof.
  unfold invoke, bind, deref.
  destruct (s !! this) as [o|] eqn:Hthis; [|no_new_object].
  destruct o, c; simpl; try no_new_object; try new_objects.
  - unfold returning, File.Brief.open, Version.files, Version.Files.open, bind, deref.
    repeat case_lookup; try no_new_object; new_objects.
  - unfold returning, Version.Brief.restore, Project.versions,
      Project.Versions.restore, bind, deref.
    repeat case_lookup; try no_new_object; new_objects.
  - unfold returning, Version.Brief.open, Project.versions,
      Project.Versions.open, bind, deref.
    repeat case_lookup; try no_new_object; new_objects.
  - unfold returning, Project.Brief.open, User.projects, User.Projects.open,
      bind, deref.
    repeat case_lookup; try no_new_object; new_objects.
  - unfold returning, RestProject.name, async, bind, read_global_name.
    destruct (global_name env) as [n|]; simpl; [|no_new_object].
    destruct (truthy n); no_new_object.
Qed.

(** Whatever is called on whatever reference, with or without success,
    every object of the heap is afterwards where and what it was, at most
    two objects have been added, and an added object is one a method may
    construct: no call changes or removes an object, builds a brief or a
    client, or gives a project a name. *)
Theorem invoke_only_adds_objects :
  forall (env : Env) (this : loc) (c : call) (s : heap),
    preserved s (snd (invoke env this c s))
    /\ length s <= length (snd (invoke env this c s)) <= length s + 2
    /\ forall (l : loc) (o : obj),
         s !! l = None ->
         snd (invoke env this c s) !! l = Some o ->
         made_by_a_method o = true.
Proof.
  intros env this c s.
  destruct (invoke_appends env this c s) as [news [Heq [Hlen Hnews]]].
  rewrite Heq. split; [apply preserved_app|].
  split; [rewrite length_app; lia|].
  intros l o Hfree Hl.
  apply lookup_app_Some in Hl as [Hl | [_ Hl]].
  - apply lookup_lt_Some in Hl. apply lookup_ge_None in Hfree. lia.
  - rewrite Forall_lookup in Hnews. exact (Hnews _ _ Hl).
Qed.

(** ** Well-formedness of every reachable heap *)

Lemma well_formed_Project_Brief_new (handle : Project_Handle) (name : string)
    (user : loc) (u : RestUser) (s : heap) :
  well_formed s ->
  s !! user = Some (ORestUser u) ->
  well_formed (snd (Project.Brief.new handle name user s)).
Proof.
  intros Hs Hu. apply well_formed_extend; [exact Hs|].
  intros [|i] o Ho; [|discriminate Ho].
  injection Ho as <-. simpl. exists u. now apply preserved_app.
Qed.

(** One call keeps a well-formed heap well-formed. *)
Lemma invoke_keeps_well_formed (env : Env) (this : loc) (c : call) (s : heap) :
  well_formed s -> well_formed (snd (invoke env this c s)).
Proof.
  intros Hs.
  destruct (s !! this) as [o|] eqn:Hthis.
  2:{ unfold invoke, bind, deref. rewrite Hthis. exact Hs. }
  rewrite (invoke_at env this o c s Hthis).
  pose proof (Hs this o Hthis) as Ho.
  destruct o, c; simpl; try exact Hs; simpl in Ho.
  - (* File.Brief.open *)
    destruct Ho as [v Hv]. destruct (Hs _ _ Hv) as [_ Hfiles].
    rewrite returning_snd.
    rewrite (File_Brief_open_on_RestVersion o s v _ Hv Hfiles).
    apply (well_formed_RestFile_new _ _ v s Hs Hv).
  - (* Version.Brief.restore *)
    destruct Ho as [p Hp]. destruct (Hs _ _ Hp) as [_ Hversions].
    rewrite returning_snd.
    unfold Version.Brief.restore, Project.versions, Project.Versions.restore,
      bind, deref.
    rewrite Hp. simpl. unfold RestProject.versions. rewrite Hversions.
    apply (well_formed_RestVersion_new _ _ p s Hs Hp).
  - (* Version.Brief.open *)
    destruct Ho as [p Hp]. destruct (Hs _ _ Hp) as [_ Hversions].
    rewrite returning_snd.
    rewrite (Version_Brief_open_on_RestProject o s p _ Hp Hversions).
    apply (well_formed_RestVersion_new _ _ p s Hs Hp).
  - (* Project.Brief.open *)
    destruct Ho as [u Hu]. destruct (Hs _ _ Hu) as [_ Hprojects].
    rewrite returning_snd.
    rewrite (Project_Brief_open_on_RestUser o s u _ Hu Hprojects).
    apply (well_formed_RestProject_new _ _ u s Hs Hu).
  - (* RestVersion.Files.create *)
    destruct Ho as [v [Hv _]].
    apply (well_formed_RestFile_new _ _ v s Hs Hv).
  - (* RestVersion.Files.open *)
    destruct Ho as [v [Hv _]].
    apply (well_formed_RestFile_new _ _ v s Hs Hv).
  - (* RestProject.name *)
    rewrite returning_snd, RestProject_name_by_global. exact Hs.
  - (* RestProject.Versions.create *)
    destruct Ho as [p [Hp _]].
    apply (well_formed_RestVersion_new _ _ p s Hs Hp).
  - (* RestProject.Versions.restore *)
    destruct Ho as [p [Hp _]].
    apply (well_formed_RestVersion_new _ _ p s Hs Hp).
  - (* RestProject.Versions.open *)
    destruct Ho as [p [Hp _]].
    apply (well_formed_RestVersion_new _ _ p s Hs Hp).
  - (* RestUser.Projects.create *)
    destruct Ho as [u [Hu _]].
    apply (well_formed_RestProject_new _ _ u s Hs Hu).
  - (* RestUser.Projects.open *)
    destruct Ho as [u [Hu _]].
    apply (well_formed_RestProject_new _ _ u s Hs Hu).
  - (* RestClient.login *)
    apply (well_formed_login this o username password s Hs Hthis).
Qed.

(** In every heap a program can reach, each reference held by an object
    leads to an object of the class its field declares, and every entity
    and its collection refer to each other. *)
Theorem reachable_heaps_are_well_formed :
  forall (env : Env) (s : heap), reachable env s -> well_formed s.
Proof.
  intros env s Hreach.
  induction Hreach as [| s url _ IH | s handle name user u _ IH Hu | s this c _ IH].
  - apply well_formed_empty.
  - now apply well_formed_RestClient_new.
  - now apply (well_formed_Project_Brief_new handle name user u).
  - now apply invoke_keeps_well_formed.
Qed.

Lemma session_heap_reachable (env : Env) : reachable env session_heap.
Proof.
  change session_heap with
    (snd (invoke env 6 (Call_open "f")
      (snd (invoke env 4 (Call_open "asdasdds")
        (snd (invoke env 2 (Call_open "asdasd")
          (snd (invoke env 0 (Call_login "" "")
            (snd (RestClient.new None [])))))))))).
  repeat apply reachable_invoke.
  apply reachable_client, reachable_empty.
Qed.

(** The heap of the session is reachable, hence well-formed. *)
Lemma reachable_heaps_are_well_formed_witness :
  reachable {| global_name := None |} session_heap /\ well_formed session_heap.
Proof.
  split.
  - apply session_heap_reachable.
  - apply (reachable_heaps_are_well_formed {| global_name := None |}).
    apply session_heap_reachable.
Defined.

(** ** No call fails, except [name] without a global *)

(** In a well-formed heap a method that the object has never throws, and
    the promise it returns is rejected in one case only: [name()] on a
    project when the host defines no global [name], with a
    [ReferenceError].  No call ever fails with [NotFound], [Conflict],
    [InvalidState] or any other kind. *)
Theorem methods_fail_only_by_the_missing_global :
  forall (env : Env) (this : loc) (o : obj) (c : call)
         (m : M (Promise value)) (s : heap),
    well_formed s ->
    s !! this = Some o ->
    method env this o c = Some m ->
    exists (p : Promise value) (s' : heap),
      m s = (Ok p, s')
      /\ forall e : error,
           p = Rejected e ->
           e = ReferenceError /\ c = Call_name /\ global_name env = None.
Proof.
  intros env this o c m s Hs Hthis Hm.
  pose proof (Hs this o Hthis) as Ho.
  destruct o, c; simpl in Hm; try discriminate Hm; injection Hm as <-;
    simpl in Ho;
    try (eexists _, _; split; [reflexivity | intros e He; discriminate He]).
  - destruct Ho as [v Hv]. destruct (Hs _ _ Hv) as [_ Hfiles].
    unfold returning, bind.
    rewrite (File_Brief_open_on_RestVersion o s v _ Hv Hfiles).
    eexists _, _; split; [reflexivity | intros e He; discriminate He].
  - destruct Ho as [p Hp]. destruct (Hs _ _ Hp) as [_ Hversions].
    unfold returning, Version.Brief.restore, Project.versions,
      Project.Versions.restore, bind, deref.
    rewrite Hp. simpl. unfold RestProject.versions. rewrite Hversions.
    eexists _, _; split; [reflexivity | intros e He; discriminate He].
  - destruct Ho as [p Hp]. destruct (Hs _ _ Hp) as [_ Hversions].
    unfold returning, bind.
    rewrite (Version_Brief_open_on_RestProject o s p _ Hp Hversions).
    eexists _, _; split; [reflexivity | intros e He; discriminate He].
  - destruct Ho as [u Hu]. destruct (Hs _ _ Hu) as [_ Hprojects].
    unfold returning, bind.
    rewrite (Project_Brief_open_on_RestUser o s u _ Hu Hprojects).
    eexists _, _; split; [reflexivity | intros e He; discriminate He].
  - unfold returning, bind. rewrite RestProject_name_by_global.
    eexists _, _; split; [reflexivity|].
    intros e He. destruct (global_name env) as [n|]; simpl in He.
    + discriminate He.
    + injection He as <-. repeat split.
Qed.

(** On the project of the session, without a global [name]. *)
Lemma methods_fail_only_by_the_missing_global_witness :
  exists (p : Promise value) (s' : heap),
    returning of_optional_string
      (RestProject.name {| global_name := None |}
         {| RestProject_user_ := 1; RestProject_handle_ := "asdasd";
            RestProject_name_ := None; RestProject_versions_ := 4 |})
      session_heap
    = (Ok p, s')
    /\ forall e : error,
         p = Rejected e ->
         e = ReferenceError /\ Call_name = Call_name
         /\ global_name {| global_name := None |} = None.
Proof.
  apply (methods_fail_only_by_the_missing_global {| global_name := None |} 3
           (ORestProject {| RestProject_user_ := 1; RestProject_handle_ := "asdasd";
                            RestProject_name_ := None; RestProject_versions_ := 4 |})
           Call_name _ session_heap).
  - apply session_heap_well_formed.
  - reflexivity.
  - reflexivity.
Defined.

(** ** A project never tells its name *)

Lemma reachable_projects_have_no_name (env : Env) (s : heap) :
  reachable env s ->
  forall (l : loc) (p : RestProject),
    s !! l = Some (ORestProject p) -> RestProject_name_ p = None.
Proof.
  intros Hreach.
  induction Hreach as [| s url _ IH | s handle name user u _ IH Hu | s this c _ IH];
    intros l p Hl.
  - discriminate Hl.
  - apply lookup_app_Some in Hl as [Hl | [_ Hl]]; [now apply (IH l)|].
    destruct (l - length s) as [|i]; discriminate Hl.
  - apply lookup_app_Some in Hl as [Hl | [_ Hl]]; [now apply (IH l)|].
    destruct (l - length s) as [|i]; discriminate Hl.
  - destruct (invoke_appends env this c s) as [news [Heq [_ Hnews]]].
    rewrite Heq in Hl.
    apply lookup_app_Some in Hl as [Hl | [_ Hl]]; [now apply (IH l)|].
    rewrite Forall_lookup in Hnews.
    specialize (Hnews _ _ Hl). simpl in Hnews.
    now apply bool_decide_eq_true in Hnews.
Qed.

(** In every reachable heap, [name()] on any project is decided by the
    host alone: a [ReferenceError] rejection without a global [name], the
    empty string when that global is falsy, [undefined] when it is truthy.
    It never yields a name, whatever name the project was created with. *)
Theorem name_never_yields_a_name :
  forall (env : Env) (s : heap) (l : loc) (p : RestProject),
    reachable env s ->
    s !! l = Some (ORestProject p) ->
    invoke env l Call_name s
    = (Ok match global_name env with
          | None => Rejected ReferenceError
          | Some n => Fulfilled (if truthy n then VUndefined else VString "")
          end, s).
Proof.
  intros env s l p Hreach Hl.
  rewrite (invoke_at env l _ Call_name s Hl). simpl.
  unfold returning, bind. rewrite RestProject_name_by_global.
  rewrite (reachable_projects_have_no_name env s Hreach l p Hl).
  destruct (global_name env) as [n|]; simpl; [|reflexivity].
  destruct (truthy n); reflexivity.
Qed.

(** A project created as robot-code in a browser whose window is named
    editor: its [name()] is [undefined]. *)
Lemma name_never_yields_a_name_witness :
  invoke {| global_name := Some (VString "editor") |} 3 Call_name
    (snd (invoke {| global_name := Some (VString "editor") |} 2
            (Call_create "robot-code" None)
            (snd (invoke {| global_name := Some (VString "editor") |} 0
                    (Call_login "alice" "secret")
                    (snd (RestClient.new None []))))))
  = (Ok (Fulfilled VUndefined),
     snd (invoke {| global_name := Some (VString "editor") |} 2
            (Call_create "robot-code" None)
            (snd (invoke {| global_name := Some (VString "editor") |} 0
                    (Call_login "alice" "secret")
                    (snd (RestClient.new None [])))))).
Proof.
  apply (name_never_yields_a_name {| global_name := Some (VString "editor") |} _ 3
           {| RestProject_user_ := 1; RestProject_handle_ := "";
              RestProject_name_ := None; RestProject_versions_ := 4 |}).
  - repeat apply reachable_invoke. apply reachable_client, reachable_empty.
  - reflexivity.
Defined.

(** ** Calls that leave no trace *)

(** [path], [move], [read], [update], [close], [list] and [delete] leave no
    trace: after any of them has been called and awaited on an object that
    has it, any call on any reference gives what it gives without the
    first call.  So [move(p)] then [path()] still yields the empty string,
    and [delete(h)] then [open(h)] still opens a project. *)
Theorem inert_calls_leave_no_trace :
  forall (env : Env) (this : loc) (o : obj) (c : call)
         (this' : loc) (c' : call) (s : heap),
    s !! this = Some o ->
    method env this o c <> None ->
    is_inert c = true ->
    (p <- invoke env this c ;;
     _ <- await p ;;
     invoke env this' c') s
    = invoke env this' c' s.
Proof.
  intros env this o c this' c' s Hthis Hm Hinert.
  unfold bind at 1. rewrite (invoke_at env this o c s Hthis).
  destruct o, c; simpl in Hm; try discriminate Hinert;
    try (exfalso; apply Hm; reflexivity); reflexivity.
Qed.

(** [delete("asdasd")] on the projects of the session, then [open] of the
    same handle. *)
Lemma inert_calls_leave_no_trace_witness :
  (p <- invoke {| global_name := None |} 2 (Call_delete "asdasd") ;;
   _ <- await p ;;
   invoke {| global_name := None |} 2 (Call_open "asdasd")) session_heap
  = invoke {| global_name := None |} 2 (Call_open "asdasd") session_heap.
Proof.
  apply (inert_calls_leave_no_trace {| global_name := None |} 2
           (ORestUser_Projects {| RestUser_Projects_user_ := 1 |})).
  - reflexivity.
  - discriminate.
  - reflexivity.
Defined.

(** ** Navigation keeps the parents *)

Lemma login_as_spec (client : loc) (c : RestClient) (username password : string)
    (s : heap) :
  well_formed s ->
  s !! client = Some (ORestClient c) ->
  exists (s1 : heap) (u : RestUser),
    login_as client username password s = (Ok (length s), s1)
    /\ well_formed s1 /\ preserved s s1
    /\ s1 !! length s = Some (ORestUser u)
    /\ RestUser.client u = client.
Proof.
  intros Hs Hc. eexists _, _.
  split; [reflexivity|].
  split; [apply (well_formed_login client c username password s Hs Hc)|].
  split; [apply preserved_app|].
  split; [apply lookup_first_new | reflexivity].
Qed.

Lemma open_project_spec (user : loc) (u : RestUser) (h : Project_Handle) (s : heap) :
  well_formed s ->
  s !! user = Some (ORestUser u) ->
  exists (s1 : heap) (p : RestProject),
    open_project user h s = (Ok (length s), s1)
    /\ well_formed s1 /\ preserved s s1
    /\ s1 !! length s = Some (ORestProject p)
    /\ RestProject.user p = user /\ RestProject.handle p = h.
Proof.
  intros Hs Hu. destruct (Hs _ _ Hu) as [_ Hprojects].
  exists (snd (RestProject.new h user s)). eexists.
  split.
  { unfold open_project, User.projects, User.Projects.open, bind, deref.
    rewrite Hu. simpl. unfold RestUser.projects. rewrite Hprojects. reflexivity. }
  split; [apply (well_formed_RestProject_new h user u s Hs Hu)|].
  split; [apply preserved_app|].
  split; [apply lookup_first_new|].
  split; reflexivity.
Qed.

Lemma open_version_spec (project : loc) (p : RestProject) (h : Version_Handle)
    (s : heap) :
  well_formed s ->
  s !! project = Some (ORestProject p) ->
  exists (s1 : heap) (v : RestVersion),
    open_version project h s = (Ok (length s), s1)
    /\ well_formed s1 /\ preserved s s1
    /\ s1 !! length s = Some (ORestVersion v)
    /\ RestVersion.project v = project /\ RestVersion.handle v = h.
Proof.
  intros Hs Hp. destruct (Hs _ _ Hp) as [_ Hversions].
  exists (snd (RestVersion.new h project s)). eexists.
  split.
  { unfold open_version, Project.versions, Project.Versions.open, bind, deref.
    rewrite Hp. simpl. unfold RestProject.versions. rewrite Hversions. reflexivity. }
  split; [apply (well_formed_RestVersion_new h project p s Hs Hp)|].
  split; [apply preserved_app|].
  split; [apply lookup_first_new|].
  split; reflexivity.
Qed.

Lemma open_file_spec (version : loc) (v : RestVersion) (h : File_Handle) (s : heap) :
  well_formed s ->
  s !! version = Some (ORestVersion v) ->
  exists (s1 : heap) (f : RestFile),
    open_file version h s = (Ok (length s), s1)
    /\ well_formed s1 /\ preserved s s1
    /\ s1 !! length s = Some (ORestFile f)
    /\ RestFile.version f = version /\ RestFile.handle f = h.
Proof.
  intros Hs Hv. destruct (Hs _ _ Hv) as [_ Hfiles].
  exists (snd (RestFile.new h version s)). eexists.
  split.
  { unfold open_file, Version.files, Version.Files.open, bind, deref.
    rewrite Hv. simpl. unfold RestVersion.files. rewrite Hfiles. reflexivity. }
  split; [apply (well_formed_RestFile_new h version v s Hs Hv)|].
  split; [apply preserved_app|].
  split; [apply lookup_first_new|].
  split; reflexivity.
Qed.

(** Logging in on a client of a well-formed heap and opening a project, a
    version and a file by handle never throws, and each entity obtained
    carries the handle it was opened with and refers back to the very
    object it was opened from: [user.client] is the client,
    [project.user] the user, [version.project] the project and
    [file.version] the version. *)
Theorem navigation_keeps_the_parents :
  forall (s : heap) (client : loc) (c : RestClient)
         (username password : string)
         (ph : Project_Handle) (vh : Version_Handle) (fh : File_Handle),
    well_formed s ->
    s !! client = Some (ORestClient c) ->
    exists (user project version file : loc) (s' : heap)
           (u : RestUser) (p : RestProject) (v : RestVersion) (f : RestFile),
      (user <- login_as client username password ;;
       project <- open_project user ph ;;
       version <- open_version project vh ;;
       file <- open_file version fh ;;
       ret (user, project, version, file)) s
      = (Ok (user, project, version, file), s')
      /\ well_formed s'
      /\ s' !! user = Some (ORestUser u) /\ RestUser.client u = client
      /\ s' !! project = Some (ORestProject p)
      /\ RestProject.user p = user /\ RestProject.handle p = ph
      /\ s' !! version = Some (ORestVersion v)
      /\ RestVersion.project v = project /\ RestVersion.handle v = vh
      /\ s' !! file = Some (ORestFile f)
      /\ RestFile.version f = version /\ RestFile.handle f = fh.
Proof.
  intros s client c username password ph vh fh Hs Hc.
  destruct (login_as_spec client c username password s Hs Hc)
    as (s1 & u & E1 & Hs1 & P1 & Lu & Gu).
  destruct (open_project_spec (length s) u ph s1 Hs1 Lu)
    as (s2 & p & E2 & Hs2 & P2 & Lp & Gp1 & Gp2).
  destruct (open_version_spec (length s1) p vh s2 Hs2 Lp)
    as (s3 & v & E3 & Hs3 & P3 & Lv & Gv1 & Gv2).
  destruct (open_file_spec (length s2) v fh s3 Hs3 Lv)
    as (s4 & f & E4 & Hs4 & P4 & Lf & Gf1 & Gf2).
  exists (length s), (length s1), (length s2), (length s3), s4, u, p, v, f.
  split.
  { unfold bind at 1. rewrite E1.
    unfold bind at 1. rewrite E2.
    unfold bind at 1. rewrite E3.
    unfold bind at 1. rewrite E4. reflexivity. }
  split; [exact Hs4|].
  split; [apply P4, P3, P2, Lu|]. split; [exact Gu|].
  split; [apply P4, P3, Lp|]. split; [exact Gp1|]. split; [exact Gp2|].
  split; [apply P4, Lv|]. split; [exact Gv1|]. split; [exact Gv2|].
  split; [exact Lf|]. split; [exact Gf1 | exact Gf2].
Qed.

(** From a new client in the empty heap, with the arguments of the test
    script. *)
Lemma navigation_keeps_the_parents_witness :
  exists (user project version file : loc) (s' : heap)
         (u : RestUser) (p : RestProject) (v : RestVersion) (f : RestFile),
    (user <- login_as 0 "" "" ;;
     project <- open_project user "asdasd" ;;
     version <- open_version project "asdasdds" ;;
     file <- open_file version "f" ;;
     ret (user, project, version, file)) (snd (RestClient.new None []))
    = (Ok (user, project, version, file), s')
    /\ well_formed s'
    /\ s' !! user = Some (ORestUser u) /\ RestUser.client u = 0
    /\ s' !! project = Some (ORestProject p)
    /\ RestProject.user p = user /\ RestProject.handle p = "asdasd"
    /\ s' !! version = Some (ORestVersion v)
    /\ RestVersion.project v = project /\ RestVersion.handle v = "asdasdds"
    /\ s' !! file = Some (ORestFile f)
    /\ RestFile.version f = version /\ RestFile.handle f = "f".
Proof.
  apply (navigation_keeps_the_parents (snd (RestClient.new None [])) 0
           {| RestClient_url_ := RestClient.DEFAULT_URL |}).
  - apply well_formed_RestClient_new, well_formed_empty.
  - reflexivity.
Defined.

(** ** Arguments that are ignored *)

(** Only the handle of [open] and [restore] reaches the result.  On a
    collection, [create] with any name and description is [open] of the
    empty handle; on an object that has [restore], restoring a handle under
    any name and description is opening it; and [login] gives the same with
    any two pairs of credentials. *)
Theorem only_the_handle_matters :
  forall (env : Env) (this : loc) (o : obj) (s : heap),
    s !! this = Some o ->
    (is_collection o = true ->
       forall (name : string) (description : option string),
         invoke env this (Call_create name description) s
         = invoke env this (Call_open "") s)
    /\ (forall (h : string) (name description : option string),
          method env this o (Call_restore h name description) <> None ->
          invoke env this (Call_restore h name description) s
          = invoke env this (Call_open h) s)
    /\ (forall username password username' password' : string,
          invoke env this (Call_login username password) s
          = invoke env this (Call_login username' password') s).
Proof.
  intros env this o s Hthis.
  split; [|split].
  - intros Hcoll name description.
    rewrite !(invoke_at env this o _ s Hthis).
    destruct o; try discriminate Hcoll; reflexivity.
  - intros h name description Hm.
    rewrite !(invoke_at env this o _ s Hthis).
    destruct o; simpl in Hm; try (exfalso; apply Hm; reflexivity); reflexivity.
  - intros username password username' password'.
    rewrite !(invoke_at env this o _ s Hthis).
    destruct o; reflexivity.
Qed.

(** On the versions collection of the session: creating v1 is opening the
    empty handle, and restoring a handle as v1-copy is opening it. *)
Lemma only_the_handle_matters_witness :
  invoke {| global_name := None |} 4 (Call_create "v1" None) session_heap
  = invoke {| global_name := None |} 4 (Call_open "") session_heap
  /\ invoke {| global_name := None |} 4
       (Call_restore "asdasdds" (Some "v1-copy") None) session_heap
     = invoke {| global_name := None |} 4 (Call_open "asdasdds") session_heap.
Proof.
  pose proof (only_the_handle_matters {| global_name := None |} 4
                (ORestProject_Versions {| RestProject_Versions_project_ := 3 |})
                session_heap eq_refl) as [Hcreate [Hrestore _]].
  split.
  - apply Hcreate. reflexivity.
  - apply Hrestore. discriminate.
Defined.

(** ** Handles do not identify objects *)

(** Opening one handle twice on one collection gives two different
    objects: both carry the handle and both refer to the same parent. *)
Theorem handles_do_not_identify :
  forall (env : Env) (this : loc) (o : obj) (h : string) (s : heap),
    s !! this = Some o ->
    is_collection o = true ->
    exists (l1 l2 : loc) (s2 : heap) (o1 o2 : obj),
      (p <- invoke env this (Call_open h) ;;
       a <- await p ;;
       q <- invoke env this (Call_open h) ;;
       b <- await q ;;
       ret (a, b)) s
      = (Ok (VObject l1, VObject l2), s2)
      /\ l1 <> l2
      /\ s2 !! l1 = Some o1 /\ s2 !! l2 = Some o2
      /\ handle_of o1 = Some h /\ handle_of o2 = Some h
      /\ parent_of o1 = parent_of o2.
Proof.
  intros env this o h s Hthis Hcoll.
  destruct o; try discriminate Hcoll.
  - set (f := ORestFile {| RestFile_version_ := RestVersion_Files_version_ o;
                           RestFile_handle_ := h |}).
    assert (Hthis1 : (s ++ [f]) !! this = Some (ORestVersion_Files o))
      by now apply preserved_app.
    exists (length s), (length (s ++ [f])), ((s ++ [f]) ++ [f]), f, f.
    split.
    { unfold bind at 1. rewrite (invoke_at env this _ _ s Hthis). simpl.
      unfold bind at 1. simpl.
      unfold bind at 1. rewrite (invoke_at env this _ _ _ Hthis1). reflexivity. }
    split; [rewrite length_app; simpl; lia|].
    split; [apply preserved_app, lookup_first_new|].
    split; [apply lookup_first_new|].
    repeat split.
  - set (v1 := ORestVersion {| RestVersion_handle_ := h;
                               RestVersion_project_ := RestProject_Versions_project_ o;
                               RestVersion_files_ := S (length s) |}).
    set (c1 := ORestVersion_Files {| RestVersion_Files_version_ := length s |}).
    set (s1 := s ++ [v1; c1]).
    set (v2 := ORestVersion {| RestVersion_handle_ := h;
                               RestVersion_project_ := RestProject_Versions_project_ o;
                               RestVersion_files_ := S (length s1) |}).
    set (c2 := ORestVersion_Files {| RestVersion_Files_version_ := length s1 |}).
    assert (Hthis1 : s1 !! this = Some (ORestProject_Versions o))
      by now apply preserved_app.
    exists (length s), (length s1), (s1 ++ [v2; c2]), v1, v2.
    split.
    { unfold bind at 1. rewrite (invoke_at env this _ _ s Hthis). simpl.
      unfold bind at 1. simpl.
      unfold bind at 1. fold v1 c1 s1.
      rewrite (invoke_at env this _ _ _ Hthis1). reflexivity. }
    split; [unfold s1; rewrite length_app; simpl; lia|].
    split; [apply preserved_app, lookup_first_new|].
    split; [apply lookup_first_new|].
    repeat split.
  - set (p1 := ORestProject {| RestProject_user_ := RestUser_Projects_user_ o;
                               RestProject_handle_ := h;
                               RestProject_name_ := None;
                               RestProject_versions_ := S (length s) |}).
    set (c1 := ORestProject_Versions {| RestProject_Versions_project_ := length s |}).
    set (s1 := s ++ [p1; c1]).
    set (p2 := ORestProject {| RestProject_user_ := RestUser_Projects_user_ o;
                               RestProject_handle_ := h;
                               RestProject_name_ := None;
                               RestProject_versions_ := S (length s1) |}).
    set (c2 := ORestProject_Versions {| RestProject_Versions_project_ := length s1 |}).
    assert (Hthis1 : s1 !! this = Some (ORestUser_Projects o))
      by now apply preserved_app.
    exists (length s), (length s1), (s1 ++ [p2; c2]), p1, p2.
    split.
    { unfold bind at 1. rewrite (invoke_at env this _ _ s Hthis). simpl.
      unfold bind at 1. simpl.
      unfold bind at 1. fold p1 c1 s1.
      rewrite (invoke_at env this _ _ _ Hthis1). reflexivity. }
    split; [unfold s1; rewrite length_app; simpl; lia|].
    split; [apply preserved_app, lookup_first_new|].
    split; [apply lookup_first_new|].
    repeat split.
Qed.

(** Opening the version of the session a second and a third time. *)
Lemma handles_do_not_identify_witness :
  exists (l1 l2 : loc) (s2 : heap) (o1 o2 : obj),
    (p <- invoke {| global_name := None |} 4 (Call_open "asdasdds") ;;
     a <- await p ;;
     q <- invoke {| global_name := None |} 4 (Call_open "asdasdds") ;;
     b <- await q ;;
     ret (a, b)) session_heap
    = (Ok (VObject l1, VObject l2), s2)
    /\ l1 <> l2
    /\ s2 !! l1 = Some o1 /\ s2 !! l2 = Some o2
    /\ handle_of o1 = Some "asdasdds" /\ handle_of o2 = Some "asdasdds"
    /\ parent_of o1 = parent_of o2.
Proof.
  apply (handles_do_not_identify {| global_name := None |} 4
           (ORestProject_Versions {| RestProject_Versions_project_ := 3 |})
           "asdasdds" session_heap); reflexivity.
Defined.

(** ** Briefs in a well-formed heap *)

(** In a well-formed heap, [open()] on a file, version or project brief
    never throws: it is fulfilled with a reference to a new entity that
    carries the brief's handle and whose parent is the entity the brief
    hangs off, and the heap stays well-formed. *)
Theorem briefs_open_to_their_entity :
  forall (env : Env) (this : loc) (o : obj) (arg : string) (s : heap),
    well_formed s ->
    s !! this = Some o ->
    is_rest_object o = false ->
    exists (l : loc) (s' : heap) (e : obj),
      invoke env this (Call_open arg) s = (Ok (Fulfilled (VObject l)), s')
      /\ s !! l = None
      /\ preserved s s'
      /\ well_formed s'
      /\ s' !! l = Some e
      /\ handle_of e = brief_handle o
      /\ parent_of e = brief_parent o.
Proof.
  intros env this o arg s Hs Hthis Hbrief.
  pose proof (Hs this o Hthis) as Ho.
  rewrite (invoke_at env this o _ s Hthis).
  destruct o; try discriminate Hbrief; simpl in Ho; simpl.
  - destruct Ho as [v Hv]. destruct (Hs _ _ Hv) as [_ Hfiles].
    unfold returning, bind.
    rewrite (File_Brief_open_on_RestVersion o s v _ Hv Hfiles).
    eexists _, _, _. split; [reflexivity|].
    split; [apply next_location_free|].
    split; [apply preserved_app|].
    split; [apply (well_formed_RestFile_new _ _ v s Hs Hv)|].
    split; [apply lookup_first_new|].
    split; reflexivity.
  - destruct Ho as [p Hp]. destruct (Hs _ _ Hp) as [_ Hversions].
    unfold returning, bind.
    rewrite (Version_Brief_open_on_RestProject o s p _ Hp Hversions).
    eexists _, _, _. split; [reflexivity|].
    split; [apply next_location_free|].
    split; [apply preserved_app|].
    split; [apply (well_formed_RestVersion_new _ _ p s Hs Hp)|].
    split; [apply lookup_first_new|].
    split; reflexivity.
  - destruct Ho as [u Hu]. destruct (Hs _ _ Hu) as [_ Hprojects].
    unfold returning, bind.
    rewrite (Project_Brief_open_on_RestUser o s u _ Hu Hprojects).
    eexists _, _, _. split; [reflexivity|].
    split; [apply next_location_free|].
    split; [apply preserved_app|].
    split; [apply (well_formed_RestProject_new _ _ u s Hs Hu)|].
    split; [apply lookup_first_new|].
    split; reflexivity.
Qed.

(** A brief of the session's project, built by [new Project.Brief] on the
    session's user, and opened. *)
Lemma briefs_open_to_their_entity_witness :
  exists (l : loc) (s' : heap) (e : obj),
    invoke {| global_name := None |} 8 (Call_open "")
      (snd (Project.Brief.new "asdasd" "robot-code" 1 session_heap))
    = (Ok (Fulfilled (VObject l)), s')
    /\ snd (Project.Brief.new "asdasd" "robot-code" 1 session_heap) !! l = None
    /\ preserved (snd (Project.Brief.new "asdasd" "robot-code" 1 session_heap)) s'
    /\ well_formed s'
    /\ s' !! l = Some e
    /\ handle_of e = Some "asdasd"
    /\ parent_of e = Some 1.
Proof.
  apply (briefs_open_to_their_entity {| global_name := None |} 8
           (OProject_Brief {| Project_Brief_user_ := 1;
                              Project_Brief_name_ := "robot-code";
                              Project_Brief_handle_ := "asdasd" |})
           "" (snd (Project.Brief.new "asdasd" "robot-code" 1 session_heap))).
  - apply (well_formed_Project_Brief_new "asdasd" "robot-code" 1
             {| RestUser_client_ := 0; RestUser_token_ := "";
                RestUser_projects_ := 2 |}).
    + apply session_heap_well_formed.
    + reflexivity.
  - reflexivity.
  - reflexivity.
Defined.
